(** * Compliance scoring engine (monitoring/compliance_scorer.py)

    A shallow embedding of [ComplianceScorer] and the properties of its
    scoring pipeline: category scoring, aggregation, classification, trend
    analysis, trend adjustment, recommendation generation and the history
    file.

    Conventions of the embedding.
    - Python floats are idealised as exact rationals [Q]; numeric results
      are compared with [==], comparisons in the code are the boolean
      tests [Qgeb], [Qgtb], [Qltb].
    - Python dictionaries supplied by a caller or built at run time are
      [gmap string _]; dictionary literals that the code iterates or sums
      in their written order are association lists.
    - Exceptions are values of [Py]; the clock and the history file are an
      explicit [World] threaded through the calls that touch them. *)

From Stdlib Require Import QArith Qminmax Lqa Qpower.
From stdpp Require Import gmap strings list fin_maps.

Open Scope Q_scope.

(** ** Python runtime fragments *)

Module PyRt.

Inductive PyExn : Type :=
| KeyError (key : string)
| IndexError.

Inductive Py (A : Type) : Type :=
| Return (a : A)
| Raise (e : PyExn).
Arguments Return {A} a.
Arguments Raise {A} e.

#[export] Instance Py_ret : MRet Py := fun _ a => Return a.
#[export] Instance Py_bind : MBind Py := fun _ _ f m =>
  match m with
  | Return a => f a
  | Raise e => Raise e
  end.

(** [d[key]] on a dictionary entry that may be absent. *)
Definition getitem {A} (key : string) (o : option A) : Py A :=
  match o with
  | Some a => Return a
  | None => Raise (KeyError key)
  end.

(** [l[0]] and [l[-1]]. *)
Definition index_first {A} (l : list A) : Py A :=
  match head l with
  | Some a => Return a
  | None => Raise IndexError
  end.

Definition index_last {A} (l : list A) : Py A :=
  match last l with
  | Some a => Return a
  | None => Raise IndexError
  end.

(** [l[-n:]]: the last [n] elements, the whole list when it is shorter. *)
Definition last_n {A} (n : nat) (l : list A) : list A :=
  drop (length l - n) l.

(** Float comparisons [a >= b], [a > b], [a < b]. *)
Definition Qgeb (a b : Q) : bool := Qle_bool b a.
Definition Qgtb (a b : Q) : bool := negb (Qle_bool a b).
Definition Qltb (a b : Q) : bool := negb (Qle_bool b a).

(** Built-in [min(a, b)] and [max(a, b)] on two arguments: the first
    argument wins ties. *)
Definition py_min (a b : Q) : Q := if Qltb b a then b else a.
Definition py_max (a b : Q) : Q := if Qgtb b a then b else a.

(** Built-in [sum]: left fold from [0]. *)
Definition py_sum (l : list Q) : Q := fold_left Qplus l 0.

(** Insertion-ordered dictionary with string keys. *)
Definition odict (V : Type) : Type := list (string * V).

Fixpoint odict_get {V} (key : string) (d : odict V) : option V :=
  match d with
  | [] => None
  | (k, v) :: d' => if String.eqb k key then Some v else odict_get key d'
  end.

(** A [for] loop whose body updates a state and may raise. *)
Fixpoint py_for {A S} (l : list A) (s : S) (body : S -> A -> Py S) : Py S :=
  match l with
  | [] => Return s
  | x :: l' =>
      match body s x with
      | Return s' => py_for l' s' body
      | Raise e => Raise e
      end
  end.

Definition odict_values {V} (d : odict V) : list V := map snd d.
Definition odict_keys {V} (d : odict V) : list string := map fst d.

End PyRt.
Import PyRt.

(** ** Data model *)

Inductive HealthCategory : Type :=
| STRUCTURAL | CONTENT | PROCESS | SECURITY | EVOLUTION.

(** [definition["thresholds"]]: a literal with the five fixed keys. *)
Record Thresholds : Type := {
  th_excellent : Q;
  th_good : Q;
  th_fair : Q;
  th_poor : Q;
  th_critical : Q
}.

(** One value of the [metric_definitions] literal. *)
Record MetricDefinition : Type := {
  def_category : HealthCategory;
  def_weight : Q;
  def_components : odict Q;
  def_thresholds : Thresholds
}.

Record HealthMetric : Type := {
  name : string;
  category : HealthCategory;
  value : Q;
  weight : Q;
  status : string;
  trend : string;
  last_updated : Z
}.

(** The advisory strings of [_generate_recommendations], one constructor
    per f-string template; [rec_name] and [rec_value] are the
    interpolated [metric.name] and [metric.value]. *)
Inductive Recommendation : Type :=
| RecCritical (rec_name : string) (rec_value : Q)
| RecBelowThreshold (rec_name : string) (rec_value : Q)
| RecDeclining (rec_name : string)
| RecRunRemediation
| RecReviewBestPractices
| RecComprehensiveReview
| RecShareAsExample.

Record ComplianceScore : Type := {
  overall_score : Q;
  category_scores : gmap string Q;
  metrics : list HealthMetric;
  compliance_level : string;
  health_grade : string;
  trend_analysis : gmap string string;
  recommendations : list Recommendation
}.

(** One JSON object of the history list; every key may be absent in data
    a caller loads from disk. *)
Record Snapshot : Type := {
  snap_timestamp : option Z;
  snap_overall_score : option Q;
  snap_compliance_level : option string;
  snap_health_grade : option string;
  snap_category_scores : option (gmap string Q);
  snap_trend_analysis : option (gmap string string)
}.

(** What [history_path] holds: no file, a file [json.load] rejects, or a
    list of snapshots. *)
Inductive FileState : Type :=
| Missing
| Corrupt
| Stored (entries : list Snapshot).

(** The clock gives the reading of the [ticks]-th call of
    [datetime.now()]. *)
Record World : Type := {
  clock : nat -> Z;
  ticks : nat;
  history_file : FileState
}.

Definition datetime_now (w : World) : Z * World :=
  (clock w (ticks w),
   {| clock := clock w; ticks := S (ticks w); history_file := history_file w |}).

(** ** Configuration: [_load_metric_definitions] *)

Definition _load_metric_definitions : odict MetricDefinition :=
  [ ("structural_health",
     {| def_category := STRUCTURAL; def_weight := 0.25;
        def_components :=
          [ ("directory_compliance", 0.4); ("file_presence", 0.3);
            ("naming_conventions", 0.2); ("organization_clarity", 0.1) ];
        def_thresholds :=
          {| th_excellent := 0.95; th_good := 0.85; th_fair := 0.70;
             th_poor := 0.50; th_critical := 0.30 |} |});
    ("content_health",
     {| def_category := CONTENT; def_weight := 0.25;
        def_components :=
          [ ("documentation_completeness", 0.35);
            ("fcm_model_compliance", 0.30);
            ("manifest_validity", 0.20); ("content_quality", 0.15) ];
        def_thresholds :=
          {| th_excellent := 0.90; th_good := 0.80; th_fair := 0.65;
             th_poor := 0.45; th_critical := 0.25 |} |});
    ("process_health",
     {| def_category := PROCESS; def_weight := 0.20;
        def_components :=
          [ ("automation_presence", 0.4);
            ("validation_integration", 0.3);
            ("ci_cd_effectiveness", 0.2);
            ("workflow_optimization", 0.1) ];
        def_thresholds :=
          {| th_excellent := 0.85; th_good := 0.70; th_fair := 0.55;
             th_poor := 0.35; th_critical := 0.20 |} |});
    ("security_health",
     {| def_category := SECURITY; def_weight := 0.15;
        def_components :=
          [ ("security_policy", 0.4); ("dependency_scanning", 0.3);
            ("access_control", 0.2);
            ("vulnerability_management", 0.1) ];
        def_thresholds :=
          {| th_excellent := 0.90; th_good := 0.75; th_fair := 0.60;
             th_poor := 0.40; th_critical := 0.20 |} |});
    ("evolution_health",
     {| def_category := EVOLUTION; def_weight := 0.15;
        def_components :=
          [ ("change_frequency", 0.3); ("improvement_trend", 0.3);
            ("adaptation_capability", 0.2);
            ("innovation_indicators", 0.2) ];
        def_thresholds :=
          {| th_excellent := 0.80; th_good := 0.65; th_fair := 0.50;
             th_poor := 0.35; th_critical := 0.20 |} |}) ].

(** [self.metric_definitions], set once in [__init__]. *)
Definition metric_definitions : odict MetricDefinition := _load_metric_definitions.

(** ** Category scoring *)

(** [validation_result] is a dictionary whose ["health_metrics"] entry,
    when present, maps metric names to floats. *)
Definition _extract_base_metrics
    (validation_result : gmap string (gmap string Q)) : odict Q :=
  let health_metrics := default ∅ (validation_result !! "health_metrics") in
  [ ("structural_health", default 0.0 (health_metrics !! "structural_health"));
    ("content_health", default 0.0 (health_metrics !! "content_health"));
    ("process_health", default 0.0 (health_metrics !! "process_health"));
    ("security_health", default 0.0 (health_metrics !! "security_health"));
    ("overall_health", default 0.0 (health_metrics !! "overall_health")) ].

Definition _calculate_evolution_health (base_metrics : odict Q) : Q :=
  let avg_health :=
    match base_metrics with
    | [] => 0.5
    | _ :: _ =>
        py_sum (odict_values base_metrics) / inject_Z (Z.of_nat (length base_metrics))
    end in
  let evolution_factor := 0.8 + (avg_health * 0.2) in
  py_min 1.0 evolution_factor.

Definition _calculate_category_score (category_name : string)
    (base_metrics : odict Q) (definition : MetricDefinition) : Q :=
  let base_score :=
    match odict_get category_name base_metrics with
    | Some v => v
    | None => 0.5
    end in
  if String.eqb category_name "evolution_health"
  then _calculate_evolution_health base_metrics
  else base_score.

(** ** Classification *)

Definition _determine_status (score : Q) (thresholds : Thresholds) : string :=
  if Qgeb score (th_excellent thresholds) then "excellent"
  else if Qgeb score (th_good thresholds) then "good"
  else if Qgeb score (th_fair thresholds) then "fair"
  else if Qgeb score (th_poor thresholds) then "poor"
  else "critical".

Definition _determine_compliance_level (overall_score : Q) : string :=
  if Qgeb overall_score 0.90 then "exemplary"
  else if Qgeb overall_score 0.75 then "secure"
  else if Qgeb overall_score 0.60 then "tested"
  else if Qgeb overall_score 0.45 then "documented"
  else if Qgeb overall_score 0.30 then "structured"
  else "basic".

Definition _calculate_health_grade (overall_score : Q) : string :=
  if Qgeb overall_score 0.95 then "A+"
  else if Qgeb overall_score 0.90 then "A"
  else if Qgeb overall_score 0.85 then "A-"
  else if Qgeb overall_score 0.80 then "B+"
  else if Qgeb overall_score 0.75 then "B"
  else if Qgeb overall_score 0.70 then "B-"
  else if Qgeb overall_score 0.65 then "C+"
  else if Qgeb overall_score 0.60 then "C"
  else if Qgeb overall_score 0.55 then "C-"
  else if Qgeb overall_score 0.50 then "D+"
  else if Qgeb overall_score 0.45 then "D"
  else "F".

(** ** Trend analysis and adjustment *)

Definition _analyze_trends (historical_data : list Snapshot)
    (current_score : ComplianceScore) : Py (gmap string string) :=
  if (length historical_data <? 2)%nat
  then mret {[ "overall" := "insufficient_data" ]}
  else
    recent_scores ←
      mapM (fun entry => getitem "overall_score" (snap_overall_score entry))
           (last_n 5 historical_data);
    trends ←
      (if (2 <=? length recent_scores)%nat then
         newest ← index_last recent_scores;
         oldest ← index_first recent_scores;
         if Qgtb newest (oldest * 1.05)
         then mret (<[ "overall" := "improving" ]> (∅ : gmap string string))
         else if Qltb newest (oldest * 0.95)
         then mret (<[ "overall" := "declining" ]> (∅ : gmap string string))
         else mret (<[ "overall" := "stable" ]> (∅ : gmap string string))
       else mret (∅ : gmap string string));
    py_for (odict_keys metric_definitions) trends
      (fun (trends : gmap string string) (category : string) =>
         let category_scores :=
           map (fun entry =>
                  default 0.5
                    (default ∅ (snap_category_scores entry) !! category))
               (last_n 3 historical_data) in
         if (2 <=? length category_scores)%nat then
           newest ← index_last category_scores;
           oldest ← index_first category_scores;
           if Qgtb newest oldest
           then mret (<[ category := "improving" ]> trends)
           else if Qltb newest oldest
           then mret (<[ category := "declining" ]> trends)
           else mret (<[ category := "stable" ]> trends)
         else mret trends).

(** Attribute assignments on the mutable [ComplianceScore] and
    [HealthMetric] objects. *)
Definition set_overall_score (x : Q) (s : ComplianceScore) : ComplianceScore :=
  {| overall_score := x; category_scores := category_scores s;
     metrics := metrics s; compliance_level := compliance_level s;
     health_grade := health_grade s; trend_analysis := trend_analysis s;
     recommendations := recommendations s |}.

Definition set_category_scores (x : gmap string Q) (s : ComplianceScore)
    : ComplianceScore :=
  {| overall_score := overall_score s; category_scores := x;
     metrics := metrics s; compliance_level := compliance_level s;
     health_grade := health_grade s; trend_analysis := trend_analysis s;
     recommendations := recommendations s |}.

Definition set_metrics (x : list HealthMetric) (s : ComplianceScore)
    : ComplianceScore :=
  {| overall_score := overall_score s; category_scores := category_scores s;
     metrics := x; compliance_level := compliance_level s;
     health_grade := health_grade s; trend_analysis := trend_analysis s;
     recommendations := recommendations s |}.

Definition set_compliance_level (x : string) (s : ComplianceScore)
    : ComplianceScore :=
  {| overall_score := overall_score s; category_scores := category_scores s;
     metrics := metrics s; compliance_level := x;
     health_grade := health_grade s; trend_analysis := trend_analysis s;
     recommendations := recommendations s |}.

Definition set_health_grade (x : string) (s : ComplianceScore)
    : ComplianceScore :=
  {| overall_score := overall_score s; category_scores := category_scores s;
     metrics := metrics s; compliance_level := compliance_level s;
     health_grade := x; trend_analysis := trend_analysis s;
     recommendations := recommendations s |}.

Definition set_trend_analysis (x : gmap string string) (s : ComplianceScore)
    : ComplianceScore :=
  {| overall_score := overall_score s; category_scores := category_scores s;
     metrics := metrics s; compliance_level := compliance_level s;
     health_grade := health_grade s; trend_analysis := x;
     recommendations := recommendations s |}.

Definition set_recommendations (x : list Recommendation) (s : ComplianceScore)
    : ComplianceScore :=
  {| overall_score := overall_score s; category_scores := category_scores s;
     metrics := metrics s; compliance_level := compliance_level s;
     health_grade := health_grade s; trend_analysis := trend_analysis s;
     recommendations := x |}.

Definition set_trend (x : string) (m : HealthMetric) : HealthMetric :=
  {| name := name m; category := category m; value := value m;
     weight := weight m; status := status m; trend := x;
     last_updated := last_updated m |}.

Definition _adjust_score_for_trends (score : ComplianceScore) : ComplianceScore :=
  let trend := default "stable" (trend_analysis score !! "overall") in
  let score :=
    if String.eqb trend "improving"
    then set_overall_score (py_min 1.0 (overall_score score * 1.02)) score
    else if String.eqb trend "declining"
    then set_overall_score (py_max 0.0 (overall_score score * 0.98)) score
    else score in
  set_metrics
    (map (fun metric =>
            let category_trend :=
              default "stable" (trend_analysis score !! name metric) in
            set_trend category_trend metric)
         (metrics score))
    score.

(** ** Recommendations *)

Definition _generate_recommendations (score : ComplianceScore)
    : list Recommendation :=
  let recommendations :=
    fold_left
      (fun recommendations metric =>
         if String.eqb (status metric) "critical"
         then recommendations ++ [RecCritical (name metric) (value metric)]
         else if String.eqb (status metric) "poor"
         then recommendations ++ [RecBelowThreshold (name metric) (value metric)]
         else if String.eqb (trend metric) "declining"
         then recommendations ++ [RecDeclining (name metric)]
         else recommendations)
      (metrics score) [] in
  let recommendations :=
    if Qltb (overall_score score) 0.5
    then recommendations ++ [RecRunRemediation] ++ [RecReviewBestPractices]
    else recommendations in
  let recommendations :=
    if existsb (String.eqb (health_grade score)) ["D"; "F"]
    then recommendations ++ [RecComprehensiveReview]
    else recommendations in
  let recommendations :=
    if Qgtb (overall_score score) 0.85
    then recommendations ++ [RecShareAsExample]
    else recommendations in
  recommendations.

(** ** History file *)

Definition _save_to_history (score : ComplianceScore) (w : World) : World :=
  let '(stamp, w) := datetime_now w in
  let history_entry :=
    {| snap_timestamp := Some stamp;
       snap_overall_score := Some (overall_score score);
       snap_compliance_level := Some (compliance_level score);
       snap_health_grade := Some (health_grade score);
       snap_category_scores := Some (category_scores score);
       snap_trend_analysis := Some (trend_analysis score) |} in
  let history :=
    match history_file w with
    | Stored entries => entries
    | Corrupt => []
    | Missing => []
    end in
  let history := history ++ [history_entry] in
  let history := last_n 100 history in
  {| clock := clock w; ticks := ticks w; history_file := Stored history |}.

(** ** The scoring entry point *)

(** One iteration of the loop over [metric_definitions.items()]: record
    the category score and append its [HealthMetric]. *)
Definition score_category (base_metrics : odict Q)
    (acc : ComplianceScore * World) (item : string * MetricDefinition)
    : ComplianceScore * World :=
  let '(score, w) := acc in
  let '(category_name, definition) := item in
  let category_score :=
    _calculate_category_score category_name base_metrics definition in
  let score :=
    set_category_scores
      (<[ category_name := category_score ]> (category_scores score)) score in
  let '(stamp, w) := datetime_now w in
  let metric :=
    {| name := category_name;
       category := def_category definition;
       value := category_score;
       weight := def_weight definition;
       status := _determine_status category_score (def_thresholds definition);
       trend := "stable";
       last_updated := stamp |} in
  (set_metrics (metrics score ++ [metric]) score, w).

Definition score_categories (base_metrics : odict Q)
    (score : ComplianceScore) (w : World) : ComplianceScore * World :=
  fold_left (score_category base_metrics) metric_definitions (score, w).

(** [sum(score.category_scores[name] * definition["weight"] for ...)]. *)
Definition weighted_overall (score : ComplianceScore) : Py Q :=
  terms ←
    mapM (fun item : string * MetricDefinition =>
            let '(name, definition) := item in
            v ← getitem name (category_scores score !! name);
            mret (v * def_weight definition))
         metric_definitions;
  mret (py_sum terms).

(** Truth value of the optional list argument. *)
Definition truthy {A} (l : option (list A)) : bool :=
  match l with
  | Some (_ :: _) => true
  | _ => false
  end.

(** First half of [calculate_compliance_score], up to the assignment of
    [score.health_grade]: the score object as it stands before the
    [if historical_data:] block. *)
Definition score_before_trends
    (validation_result : gmap string (gmap string Q)) (w : World)
    : Py (ComplianceScore * World) :=
  let score :=
    {| overall_score := 0.0; category_scores := ∅; metrics := [];
       compliance_level := "basic"; health_grade := "C";
       trend_analysis := ∅; recommendations := [] |} in
  let base_metrics := _extract_base_metrics validation_result in
  let '(score, w) := score_categories base_metrics score w in
  overall ← weighted_overall score;
  let score := set_overall_score overall score in
  let score :=
    set_compliance_level (_determine_compliance_level (overall_score score)) score in
  let score :=
    set_health_grade (_calculate_health_grade (overall_score score)) score in
  mret (score, w).

(** The [if historical_data:] block: classify the trends, then adjust
    the score object. *)
Definition analyze_and_adjust (historical_data : option (list Snapshot))
    (score : ComplianceScore) : Py ComplianceScore :=
  if truthy historical_data then
    trends ← _analyze_trends (default [] historical_data) score;
    mret (_adjust_score_for_trends (set_trend_analysis trends score))
  else mret score.

Definition calculate_compliance_score
    (validation_result : gmap string (gmap string Q))
    (historical_data : option (list Snapshot)) (w : World)
    : Py (ComplianceScore * World) :=
  '(score, w) ← score_before_trends validation_result w;
  score ← analyze_and_adjust historical_data score;
  let score := set_recommendations (_generate_recommendations score) score in
  let w := _save_to_history score w in
  mret (score, w).

(** ** Notions used in the statements *)

(** [health_metrics.get(key, 0.0)] on the validation result: the raw
    value a caller supplied under [key], 0.0 when absent. *)
Definition raw_metric (validation_result : gmap string (gmap string Q))
    (key : string) : Q :=
  default 0.0 (default ∅ (validation_result !! "health_metrics") !! key).

(** The [category_scores] dictionary after the loop over the five
    definitions, in insertion order. *)
Definition category_map (s c p sec e : Q) : gmap string Q :=
  <[ "evolution_health" := e ]>
    (<[ "security_health" := sec ]>
       (<[ "process_health" := p ]>
          (<[ "content_health" := c ]>
             (<[ "structural_health" := s ]> ∅)))).

(** The evolution score of a validation result. *)
Definition evolution_of (validation_result : gmap string (gmap string Q)) : Q :=
  _calculate_evolution_health (_extract_base_metrics validation_result).

(** The world after [n] readings of the clock. *)
Definition advance (n : nat) (w : World) : World :=
  {| clock := clock w; ticks := (n + ticks w)%nat; history_file := history_file w |}.

(** The [HealthMetric] built for one definition when the clock reads
    [stamp]. *)
Definition metric_at (base_metrics : odict Q) (stamp : Z)
    (item : string * MetricDefinition) : HealthMetric :=
  let v := _calculate_category_score item.1 base_metrics item.2 in
  {| name := item.1; category := def_category item.2; value := v;
     weight := def_weight item.2;
     status := _determine_status v (def_thresholds item.2);
     trend := "stable"; last_updated := stamp |}.

(** The entries [_analyze_trends] indexes with ["overall_score"] all
    carry that key. *)
Definition history_readable (historical_data : option (list Snapshot)) : Prop :=
  (length (default [] historical_data) < 2)%nat \/
  Forall (fun entry => is_Some (snap_overall_score entry))
         (last_n 5 (default [] historical_data)).

(** The fields of a metric that are set at construction and never
    reassigned, without the time stamp. *)
Definition metric_core (metric : HealthMetric)
    : string * HealthCategory * Q * Q * string :=
  (name metric, category metric, value metric, weight metric, status metric).

(** A world for the examples: the clock counts its readings and there is
    no history file yet. *)
Definition epoch_world : World :=
  {| clock := Z.of_nat; ticks := 0; history_file := Missing |}.

(** A validation result whose ["health_metrics"] entry holds the given
    pairs. *)
Definition validation_of (l : list (string * Q)) : gmap string (gmap string Q) :=
  {[ "health_metrics" := list_to_map l ]}.

(** Inputs of the examples. *)
Definition scenario_A_full : gmap string (gmap string Q) :=
  validation_of [("structural_health", 1.0); ("content_health", 1.0);
                 ("process_health", 1.0); ("security_health", 1.0);
                 ("overall_health", 1.0)].

Definition scenario_A_four : gmap string (gmap string Q) :=
  validation_of [("structural_health", 1.0); ("content_health", 1.0);
                 ("process_health", 1.0); ("security_health", 1.0)].

Definition half_scores : gmap string (gmap string Q) :=
  validation_of [("structural_health", 0.5); ("content_health", 0.5);
                 ("process_health", 0.5); ("security_health", 0.5);
                 ("overall_health", 0.5)].

Definition negative_overall_health : gmap string (gmap string Q) :=
  validation_of [("overall_health", -100)].

Definition slightly_negative_overall_health : gmap string (gmap string Q) :=
  validation_of [("overall_health", -1)].

Definition improving_half : ComplianceScore :=
  {| overall_score := 0.5; category_scores := ∅; metrics := [];
     compliance_level := "documented"; health_grade := "D+";
     trend_analysis := {[ "overall" := "improving" ]}; recommendations := [] |}.

Definition declining_history : list Snapshot :=
  [ {| snap_timestamp := Some 1%Z; snap_overall_score := Some 0.9;
       snap_compliance_level := Some "exemplary"; snap_health_grade := Some "A";
       snap_category_scores := None; snap_trend_analysis := None |};
    {| snap_timestamp := Some 2%Z; snap_overall_score := Some 0.5;
       snap_compliance_level := Some "documented"; snap_health_grade := Some "D+";
       snap_category_scores := None; snap_trend_analysis := None |} ].

Definition near_perfect : gmap string (gmap string Q) :=
  validation_of [("structural_health", 0.85); ("content_health", 1.0);
                 ("process_health", 1.0); ("security_health", 1.0);
                 ("overall_health", 1.0)].

Definition lone_snapshot : Snapshot :=
  {| snap_timestamp := Some 1%Z; snap_overall_score := Some 0.5;
     snap_compliance_level := Some "documented"; snap_health_grade := Some "D+";
     snap_category_scores := None; snap_trend_analysis := None |}.

(** A metric with its [last_updated] stamp blanked, and a score whose
    metrics are all blanked: everything a run returns except what is
    read from the clock. *)
Definition without_stamp (metric : HealthMetric) : HealthMetric :=
  {| name := name metric; category := category metric; value := value metric;
     weight := weight metric; status := status metric; trend := trend metric;
     last_updated := 0%Z |}.

Definition timeless (score : ComplianceScore) : ComplianceScore :=
  set_metrics (map without_stamp (metrics score)) score.

(** What one pass of the loop over [score.metrics] appends: the three
    tests form an [if]/[elif]/[elif] chain, so at most one flag. *)
Definition metric_flags (metric : HealthMetric) : list Recommendation :=
  if String.eqb (status metric) "critical"
  then [RecCritical (name metric) (value metric)]
  else if String.eqb (status metric) "poor"
  then [RecBelowThreshold (name metric) (value metric)]
  else if String.eqb (trend metric) "declining"
  then [RecDeclining (name metric)]
  else [].

(** The advisory strings appended after the loop over the metrics. *)
Definition global_flags : list Recommendation :=
  [RecRunRemediation; RecReviewBestPractices; RecComprehensiveReview;
   RecShareAsExample].

Definition structural_decline : list Snapshot :=
  [ {| snap_timestamp := Some 1%Z; snap_overall_score := Some 0.5;
       snap_compliance_level := Some "documented"; snap_health_grade := Some "D+";
       snap_category_scores := Some {[ "structural_health" := 0.5 ]};
       snap_trend_analysis := None |};
    {| snap_timestamp := Some 2%Z; snap_overall_score := Some 0.4;
       snap_compliance_level := Some "structured"; snap_health_grade := Some "F";
       snap_category_scores := Some {[ "structural_health" := 0.1 ]};
       snap_trend_analysis := None |} ].

(** The list [_save_to_history] starts from: the stored one, or the empty
    list when the file is missing or unreadable. *)
Definition stored_entries (f : FileState) : list Snapshot :=
  match f with
  | Stored entries => entries
  | Corrupt => []
  | Missing => []
  end.

(** History files of the examples: snapshots told apart by their time
    stamp. *)
Definition numbered_snapshot (i : nat) : Snapshot :=
  {| snap_timestamp := Some (Z.of_nat i); snap_overall_score := Some 0.5;
     snap_compliance_level := Some "documented"; snap_health_grade := Some "D+";
     snap_category_scores := None; snap_trend_analysis := None |}.

Definition hundred_snapshots : list Snapshot := map numbered_snapshot (seq 0 100).

Definition crowded_world : World :=
  {| clock := fun _ => 1000%Z; ticks := 0; history_file := Stored hundred_snapshots |}.

Definition two_snapshots_world : World :=
  {| clock := fun _ => 1000%Z; ticks := 0;
     history_file := Stored [numbered_snapshot 0; numbered_snapshot 1] |}.

(** ** Scoring algorithms: [_load_scoring_algorithms] *)

(** Float division [a / b]: a zero divisor raises [ZeroDivisionError]. *)
Inductive Quotient : Type :=
| Value (q : Q)
| ZeroDivisionError.

Definition py_truediv (a b : Q) : Quotient :=
  if Qeq_bool b 0 then ZeroDivisionError else Value (a / b).

(** [enumerate(l)]. *)
Definition enumerate {A} (l : list A) : list (nat * A) := imap pair l.

Definition _weighted_average_score (scores weights : list Q) : Quotient :=
  if bool_decide (scores = []) || bool_decide (weights = [])
     || negb (length scores =? length weights)%nat
  then Value 0.0
  else py_truediv (py_sum (map (fun '(s, w) => s * w) (zip scores weights)))
                  (py_sum weights).

(** [decay_factor] defaults to 0.9 at the call. *)
Definition _exponential_decay_score (scores : list Q) (decay_factor : Q) : Q :=
  if bool_decide (scores = []) then 0.0
  else
    let '(weighted_sum, weight_sum) :=
      fold_left
        (fun (acc : Q * Q) (item : nat * Q) =>
           let '(weighted_sum, weight_sum) := acc in
           let '(i, score) := item in
           let weight := decay_factor ^ Z.of_nat i in
           (weighted_sum + score * weight, weight_sum + weight))
        (enumerate (rev scores)) (0.0, 0.0) in
    if Qgtb weight_sum 0 then weighted_sum / weight_sum else 0.0.

(** [trend_weight] defaults to 0.1 at the call. *)
Definition _trend_adjusted_score (scores : list Q) (trend_weight : Q) : Py Q :=
  if (length scores <? 2)%nat then
    if bool_decide (scores = []) then mret 0.0 else index_first scores
  else
    base_score ← index_last scores;
    newest ← index_last scores;
    oldest ← index_first scores;
    let trend := (newest - oldest) / inject_Z (Z.of_nat (length scores)) in
    mret (base_score + (trend * trend_weight)).

(** [str.lower()] on strings whose characters have codes below 256: the
    letters A-Z and the Latin-1 capitals move up by 32. *)
Definition lower_char (c : Ascii.ascii) : Ascii.ascii :=
  let n := Ascii.nat_of_ascii c in
  if ((65 <=? n) && (n <=? 90) || (192 <=? n) && (n <=? 214)
      || (216 <=? n) && (n <=? 222))%nat
  then Ascii.ascii_of_nat (n + 32)
  else c.

Fixpoint lower (s : string) : string :=
  match s with
  | EmptyString => EmptyString
  | String c s' => String (lower_char c) (lower s')
  end.

(** [needle in hay] on strings. *)
Fixpoint contains (needle hay : string) : bool :=
  String.prefix needle hay ||
  match hay with
  | EmptyString => false
  | String _ hay' => contains needle hay'
  end.

Definition _penalty_based_score (base_score : Q) (violations : list string) : Q :=
  let penalty :=
    fold_left
      (fun penalty violation =>
         if contains "critical" (lower violation)
            || contains "missing required" (lower violation)
         then penalty + 0.1
         else if contains "warning" (lower violation)
                 || contains "recommended" (lower violation)
         then penalty + 0.02
         else penalty + 0.05)
      violations 0.0 in
  py_max 0.0 (base_score - penalty).

(** The amount one pass of the loop of [_penalty_based_score] adds. *)
Definition violation_penalty (violation : string) : Q :=
  if contains "critical" (lower violation)
     || contains "missing required" (lower violation)
  then 0.1
  else if contains "warning" (lower violation)
          || contains "recommended" (lower violation)
  then 0.02
  else 0.05.

(** ** Orderings on the classification labels *)

Definition thresholds_descending (th : Thresholds) : Prop :=
  th_poor th <= th_fair th /\ th_fair th <= th_good th /\
  th_good th <= th_excellent th.

Definition status_rank (status : string) : nat :=
  if String.eqb status "excellent" then 4
  else if String.eqb status "good" then 3
  else if String.eqb status "fair" then 2
  else if String.eqb status "poor" then 1
  else 0.

Definition level_rank (level : string) : nat :=
  if String.eqb level "exemplary" then 5
  else if String.eqb level "secure" then 4
  else if String.eqb level "tested" then 3
  else if String.eqb level "documented" then 2
  else if String.eqb level "structured" then 1
  else 0.

Definition grade_rank (grade : string) : nat :=
  if String.eqb grade "A+" then 11
  else if String.eqb grade "A" then 10
  else if String.eqb grade "A-" then 9
  else if String.eqb grade "B+" then 8
  else if String.eqb grade "B" then 7
  else if String.eqb grade "B-" then 6
  else if String.eqb grade "C+" then 5
  else if String.eqb grade "C" then 4
  else if String.eqb grade "C-" then 3
  else if String.eqb grade "D+" then 2
  else if String.eqb grade "D" then 1
  else 0.

(** The labels [_analyze_trends] assigns once it has two entries to
    compare. *)
Definition trend_label (label : string) : Prop :=
  label = "improving" \/ label = "declining" \/ label = "stable".

(** A snapshot that records nothing, and a history that ends in it. *)
Definition keyless_snapshot : Snapshot :=
  {| snap_timestamp := None; snap_overall_score := None;
     snap_compliance_level := None; snap_health_grade := None;
     snap_category_scores := None; snap_trend_analysis := None |}.


(** The [history_entry] literal of [_save_to_history] for a score saved
    when the clock reads [stamp]. *)
Definition snapshot_of (stamp : Z) (score : ComplianceScore) : Snapshot :=
  {| snap_timestamp := Some stamp;
     snap_overall_score := Some (overall_score score);
     snap_compliance_level := Some (compliance_level score);
     snap_health_grade := Some (health_grade score);
     snap_category_scores := Some (category_scores score);
     snap_trend_analysis := Some (trend_analysis score) |}.

(** Every entry carries the key [_analyze_trends] indexes. *)
Definition scored_entries (entries : list Snapshot) : Prop :=
  Forall (fun entry => is_Some (snap_overall_score entry)) entries.


(** * Properties *)

Section Comparisons.

Lemma Qgeb_true a b : Qgeb a b = true <-> b <= a.
Proof. unfold Qgeb. apply Qle_bool_iff. Qed.

Lemma Qgeb_false a b : Qgeb a b = false <-> a < b.
Proof.
  unfold Qgeb. split; intros H.
  - apply Qnot_le_lt. intros Hle. apply Qle_bool_iff in Hle. congruence.
  - destruct (Qle_bool b a) eqn:E; [|reflexivity].
    apply Qle_bool_iff in E. lra.
Qed.

Lemma Qgtb_true a b : Qgtb a b = true <-> b < a.
Proof.
  unfold Qgtb. rewrite negb_true_iff. apply (Qgeb_false b a).
Qed.

Lemma Qgtb_false a b : Qgtb a b = false <-> a <= b.
Proof.
  unfold Qgtb. rewrite negb_false_iff. apply Qle_bool_iff.
Qed.

Lemma Qltb_true a b : Qltb a b = true <-> a < b.
Proof. apply (Qgtb_true b a). Qed.

Lemma Qltb_false a b : Qltb a b = false <-> b <= a.
Proof. apply (Qgtb_false b a). Qed.

Lemma py_min_Qmin a b : py_min a b == Qmin a b.
Proof.
  unfold py_min. destruct (Qltb b a) eqn:E.
  - apply Qltb_true in E. symmetry. apply Q.min_r. lra.
  - apply Qltb_false in E. symmetry. apply Q.min_l. lra.
Qed.

Lemma py_max_Qmax a b : py_max a b == Qmax a b.
Proof.
  unfold py_max. destruct (Qgtb b a) eqn:E.
  - apply Qgtb_true in E. symmetry. apply Q.max_r. lra.
  - apply Qgtb_false in E. symmetry. apply Q.max_l. lra.
Qed.

Lemma py_min_cases a b : (b < a /\ py_min a b = b) \/ (a <= b /\ py_min a b = a).
Proof.
  unfold py_min. destruct (Qltb b a) eqn:E.
  - left. apply Qltb_true in E. auto.
  - right. apply Qltb_false in E. auto.
Qed.

Lemma py_max_cases a b : (a < b /\ py_max a b = b) \/ (b <= a /\ py_max a b = a).
Proof.
  unfold py_max. destruct (Qgtb b a) eqn:E.
  - left. apply Qgtb_true in E. auto.
  - right. apply Qgtb_false in E. auto.
Qed.

End Comparisons.

Lemma weighted_overall_category_map s c p sec e score :
  category_scores score = category_map s c p sec e ->
  weighted_overall score =
  Return (py_sum [s * 0.25; c * 0.25; p * 0.20; sec * 0.15; e * 0.15]).
Proof.
  intros H. unfold weighted_overall, metric_definitions, _load_metric_definitions.
  rewrite H. unfold category_map. simpl mapM.
  repeat (rewrite ?lookup_insert_eq; rewrite ?lookup_insert_ne by done).
  reflexivity.
Qed.

Section CategoryLoop.

Variable base_metrics : odict Q.

Lemma score_category_fold (defs : odict MetricDefinition) :
  forall score w,
    let r := fold_left (score_category base_metrics) defs (score, w) in
    category_scores r.1 =
      fold_left (fun m item =>
                   <[ item.1 := _calculate_category_score item.1 base_metrics item.2 ]> m)
                defs (category_scores score) /\
    metrics r.1 =
      metrics score ++
      imap (fun i => metric_at base_metrics (clock w (i + ticks w)%nat)) defs /\
    overall_score r.1 = overall_score score /\
    compliance_level r.1 = compliance_level score /\
    health_grade r.1 = health_grade score /\
    trend_analysis r.1 = trend_analysis score /\
    recommendations r.1 = recommendations score /\
    r.2 = advance (length defs) w.
Proof.
  induction defs as [|[category_name definition] defs IH]; intros score w r.
  - subst r. simpl. rewrite app_nil_r. destruct w; repeat split; reflexivity.
  - subst r. cbn [fold_left].
    pose (score' :=
      set_metrics
        (metrics score ++
         [metric_at base_metrics (clock w (ticks w)) (category_name, definition)])
        (set_category_scores
           (<[ category_name :=
                 _calculate_category_score category_name base_metrics definition ]>
              (category_scores score)) score)).
    change (score_category base_metrics (score, w) (category_name, definition))
      with (score', advance 1 w).
    destruct (IH score' (advance 1 w)) as (Hc & Hm & Ho & Hl & Hg & Ht & Hr & Hw).
    rewrite Hc, Hm, Ho, Hl, Hg, Ht, Hr, Hw. subst score'.
    cbn [category_scores metrics overall_score compliance_level health_grade
         trend_analysis recommendations set_metrics set_category_scores
         fst snd length].
    repeat split.
    + rewrite <- app_assoc. cbn [app imap]. do 2 f_equal.
      apply imap_ext. intros i x _. unfold advance, compose. cbn [clock ticks].
      do 2 f_equal. lia.
    + unfold advance. cbn [clock ticks history_file]. f_equal. lia.
Qed.

End CategoryLoop.

Lemma category_score_base vr key d :
  key ∈ ["structural_health"; "content_health"; "process_health"; "security_health"] ->
  _calculate_category_score key (_extract_base_metrics vr) d = raw_metric vr key.
Proof.
  intros Hk. repeat (apply elem_of_cons in Hk as [-> | Hk]; [reflexivity|]).
  by apply elem_of_nil in Hk.
Qed.

Lemma category_score_evolution vr d :
  _calculate_category_score "evolution_health" (_extract_base_metrics vr) d =
  evolution_of vr.
Proof.
  unfold _calculate_category_score, evolution_of.
  by rewrite String.eqb_refl.
Qed.

Lemma score_before_trends_returns vr w :
  exists score,
    score_before_trends vr w = Return (score, advance 5 w) /\
    category_scores score =
      category_map (raw_metric vr "structural_health") (raw_metric vr "content_health")
        (raw_metric vr "process_health") (raw_metric vr "security_health")
        (evolution_of vr) /\
    overall_score score =
      py_sum [raw_metric vr "structural_health" * 0.25;
              raw_metric vr "content_health" * 0.25;
              raw_metric vr "process_health" * 0.20;
              raw_metric vr "security_health" * 0.15;
              evolution_of vr * 0.15] /\
    compliance_level score = _determine_compliance_level (overall_score score) /\
    health_grade score = _calculate_health_grade (overall_score score) /\
    metrics score =
      imap (fun i => metric_at (_extract_base_metrics vr) (clock w (i + ticks w)%nat))
           metric_definitions /\
    trend_analysis score = ∅ /\
    recommendations score = [].
Proof.
  unfold score_before_trends, score_categories.
  match goal with
  | |- context [fold_left ?f ?l (?s, ?w0)] =>
      destruct (score_category_fold (_extract_base_metrics vr) l s w0)
        as (Hc & Hm & Ho & Hl & Hg & Ht & Hr & Hw);
      destruct (fold_left f l (s, w0)) as [score1 w1]
  end.
  cbn [fst snd category_scores metrics overall_score compliance_level
       health_grade trend_analysis recommendations app] in *.
  assert (Hmap : category_scores score1 =
      category_map (raw_metric vr "structural_health") (raw_metric vr "content_health")
        (raw_metric vr "process_health") (raw_metric vr "security_health")
        (evolution_of vr)).
  { rewrite Hc. unfold metric_definitions, _load_metric_definitions.
    cbn [fold_left fst snd]. rewrite category_score_evolution.
    rewrite !category_score_base by (rewrite !elem_of_cons; tauto).
    reflexivity. }
  rewrite (weighted_overall_category_map _ _ _ _ _ _ Hmap).
  eexists. split; [subst w1; reflexivity|].
  cbn [category_scores metrics overall_score compliance_level health_grade
       trend_analysis recommendations set_overall_score set_compliance_level
       set_health_grade].
  repeat split; assumption.
Qed.

(** ** Trend analysis returns on readable histories *)

Lemma length_last_n {A} (n : nat) (l : list A) :
  length (last_n n l) = Nat.min n (length l).
Proof. unfold last_n. rewrite length_drop. lia. Qed.

Lemma last_n_short {A} (n : nat) (l : list A) :
  (length l <= n)%nat -> last_n n l = l.
Proof.
  intros H. unfold last_n. replace (length l - n)%nat with 0%nat by lia.
  reflexivity.
Qed.

Lemma mapM_getitem_returns (l : list Snapshot) :
  Forall (fun entry => is_Some (snap_overall_score entry)) l ->
  exists qs,
    mapM (fun entry => getitem "overall_score" (snap_overall_score entry)) l
      = Return qs /\ length qs = length l.
Proof.
  induction 1 as [|entry l [q Hq] _ (qs & IH & Hlen)].
  - exists []. split; reflexivity.
  - exists (q :: qs). cbn [mapM]. cbn [mapM] in IH. rewrite Hq, IH.
    split; [reflexivity | simpl; lia].
Qed.

Lemma index_last_returns {A} (l : list A) :
  (1 <= length l)%nat -> exists a, index_last l = Return a.
Proof.
  intros H. unfold index_last. destruct (last l) as [a|] eqn:E; [eauto|].
  apply last_None in E. subst l. simpl in H. lia.
Qed.

Lemma index_first_returns {A} (l : list A) :
  (1 <= length l)%nat -> exists a, index_first l = Return a.
Proof.
  intros H. destruct l as [|a l]; [simpl in H; lia|]. exists a. reflexivity.
Qed.

Lemma py_for_returns {A S} (body : S -> A -> Py S) (l : list A) :
  (forall s x, exists s', body s x = Return s') ->
  forall s, exists s', py_for l s body = Return s'.
Proof.
  intros Hbody. induction l as [|x l IH]; intros s; [eexists; reflexivity|].
  destruct (Hbody s x) as [s' Hs']. simpl. rewrite Hs'. apply IH.
Qed.

Lemma _analyze_trends_returns (historical_data : list Snapshot) score :
  history_readable (Some historical_data) ->
  exists trends, _analyze_trends historical_data score = Return trends.
Proof.
  intros Hread. unfold _analyze_trends.
  destruct (length historical_data <? 2)%nat eqn:Hlen; [eexists; reflexivity|].
  apply Nat.ltb_ge in Hlen.
  destruct Hread as [Hshort | Hall]; [simpl in Hshort; lia|].
  change (default [] (Some historical_data)) with historical_data in Hall.
  destruct (mapM_getitem_returns _ Hall) as (qs & -> & Hqs).
  simpl in Hqs. rewrite length_last_n in Hqs.
  cbn [mbind Py_bind].
  assert (Hge : (2 <=? length qs)%nat = true) by (apply Nat.leb_le; lia).
  rewrite Hge.
  destruct (index_last_returns qs) as [newest ->]; [lia|].
  destruct (index_first_returns qs) as [oldest ->]; [lia|].
  cbn [mbind Py_bind].
  match goal with
  | |- context [py_for ?l _ ?body] =>
      assert (Hfor : forall s, exists s', py_for l s body = Return s')
  end.
  { apply py_for_returns. intros trends category.
    rewrite length_map, length_last_n.
    assert (Hge3 : (2 <=? Nat.min 3 (length historical_data))%nat = true)
      by (apply Nat.leb_le; lia).
    rewrite Hge3.
    match goal with
    | |- context [index_last ?cs] =>
        destruct (index_last_returns cs) as [n1 ->];
        [rewrite length_map, length_last_n; lia|];
        destruct (index_first_returns cs) as [o1 ->];
        [rewrite length_map, length_last_n; lia|]
    end.
    cbn [mbind Py_bind].
    destruct (Qgtb n1 o1); [eexists; reflexivity|].
    destruct (Qltb n1 o1); eexists; reflexivity. }
  destruct (Qgtb newest (oldest * 1.05)); [apply Hfor|].
  destruct (Qltb newest (oldest * 0.95)); apply Hfor.
Qed.

(** ** Effect of the trend adjustment on each field *)

Section Adjustment.

Variable score : ComplianceScore.

Let overall_trend : string := default "stable" (trend_analysis score !! "overall").

Lemma adjust_overall_score :
  overall_score (_adjust_score_for_trends score) =
  if String.eqb overall_trend "improving"
  then py_min 1.0 (overall_score score * 1.02)
  else if String.eqb overall_trend "declining"
  then py_max 0.0 (overall_score score * 0.98)
  else overall_score score.
Proof.
  unfold _adjust_score_for_trends. fold overall_trend.
  destruct (String.eqb overall_trend "improving"); [reflexivity|].
  destruct (String.eqb overall_trend "declining"); reflexivity.
Qed.

Lemma adjust_keeps_classification :
  category_scores (_adjust_score_for_trends score) = category_scores score /\
  compliance_level (_adjust_score_for_trends score) = compliance_level score /\
  health_grade (_adjust_score_for_trends score) = health_grade score /\
  trend_analysis (_adjust_score_for_trends score) = trend_analysis score /\
  recommendations (_adjust_score_for_trends score) = recommendations score.
Proof.
  unfold _adjust_score_for_trends. fold overall_trend.
  destruct (String.eqb overall_trend "improving");
    [|destruct (String.eqb overall_trend "declining")];
    repeat split; reflexivity.
Qed.

Lemma adjust_metrics :
  metrics (_adjust_score_for_trends score) =
  map (fun metric =>
         set_trend (default "stable" (trend_analysis score !! name metric)) metric)
      (metrics score).
Proof.
  unfold _adjust_score_for_trends. fold overall_trend.
  destruct (String.eqb overall_trend "improving");
    [|destruct (String.eqb overall_trend "declining")]; reflexivity.
Qed.

End Adjustment.

(** ** The whole run *)

Lemma analyze_and_adjust_returns hd pre :
  history_readable hd ->
  exists adjusted,
    analyze_and_adjust hd pre = Return adjusted /\
    (truthy hd = false -> adjusted = pre) /\
    (truthy hd = true ->
     exists trends,
       _analyze_trends (default [] hd) pre = Return trends /\
       adjusted = _adjust_score_for_trends (set_trend_analysis trends pre)).
Proof.
  intros Hread. unfold analyze_and_adjust.
  destruct (truthy hd) eqn:Ht.
  - destruct hd as [[|entry l]|]; try discriminate Ht.
    destruct (_analyze_trends_returns (entry :: l) pre Hread) as [trends Htr].
    change (default [] (Some (entry :: l))) with (entry :: l).
    rewrite Htr. eexists. split; [reflexivity|].
    split; [discriminate|]. intros _. exists trends. split; reflexivity.
  - exists pre. split; [reflexivity|]. split; [reflexivity|discriminate].
Qed.

Lemma calculate_compliance_score_returns vr hd w :
  history_readable hd ->
  exists pre adjusted,
    score_before_trends vr w = Return (pre, advance 5 w) /\
    analyze_and_adjust hd pre = Return adjusted /\
    calculate_compliance_score vr hd w =
      Return (set_recommendations (_generate_recommendations adjusted) adjusted,
              _save_to_history
                (set_recommendations (_generate_recommendations adjusted) adjusted)
                (advance 5 w)).
Proof.
  intros Hread.
  destruct (score_before_trends_returns vr w) as (pre & Hpre & _).
  destruct (analyze_and_adjust_returns hd pre Hread) as (adjusted & Hadj & _).
  exists pre, adjusted. split; [assumption|]. split; [assumption|].
  unfold calculate_compliance_score. rewrite Hpre. cbn [mbind Py_bind].
  rewrite Hadj. reflexivity.
Qed.


Lemma generate_ignores_recommendations recs score :
  _generate_recommendations (set_recommendations recs score) =
  _generate_recommendations score.
Proof. reflexivity. Qed.

Lemma run_fields vr hd w :
  history_readable hd ->
  exists pre score w',
    score_before_trends vr w = Return (pre, advance 5 w) /\
    calculate_compliance_score vr hd w = Return (score, w') /\
    category_scores score = category_scores pre /\
    compliance_level score = compliance_level pre /\
    health_grade score = health_grade pre /\
    map metric_core (metrics score) = map metric_core (metrics pre) /\
    recommendations score = _generate_recommendations score /\
    (truthy hd = false ->
     overall_score score = overall_score pre /\
     trend_analysis score = trend_analysis pre /\
     metrics score = metrics pre) /\
    (truthy hd = true ->
     exists trends,
       _analyze_trends (default [] hd) pre = Return trends /\
       trend_analysis score = trends /\
       overall_score score =
         overall_score (_adjust_score_for_trends (set_trend_analysis trends pre)) /\
       metrics score =
         map (fun metric =>
                set_trend (default "stable" (trends !! name metric)) metric)
             (metrics pre)).
Proof.
  intros Hread.
  destruct (calculate_compliance_score_returns vr hd w Hread)
    as (pre & adjusted & Hpre & Hadj & Hrun).
  destruct (analyze_and_adjust_returns hd pre Hread) as (adjusted' & Hadj' & Hoff & Hon).
  rewrite Hadj in Hadj'. injection Hadj' as <-.
  exists pre. eexists. eexists. split; [exact Hpre|]. split; [exact Hrun|].
  cbn [category_scores compliance_level health_grade metrics recommendations
       overall_score trend_analysis set_recommendations].
  destruct (truthy hd) eqn:Ht.
  - destruct (Hon eq_refl) as (trends & Htr & ->).
    destruct (adjust_keeps_classification (set_trend_analysis trends pre))
      as (Hc & Hl & Hg & Hta & _).
    rewrite Hc, Hl, Hg, Hta, adjust_metrics.
    cbn [category_scores compliance_level health_grade metrics trend_analysis
         set_trend_analysis].
    split; [reflexivity|]. split; [reflexivity|]. split; [reflexivity|].
    split; [by rewrite map_map|].
    split; [symmetry; apply generate_ignores_recommendations|].
    split; [intros [=]|].
    intros _. exists trends. split; [assumption|].
    split; [reflexivity|]. split; reflexivity.
  - rewrite (Hoff eq_refl).
    split; [reflexivity|]. split; [reflexivity|]. split; [reflexivity|].
    split; [reflexivity|].
    split; [symmetry; apply generate_ignores_recommendations|].
    split; [intros _; repeat split|intros [=]].
Qed.

(** ** Numeric facts about the evolution estimate and the classifiers *)

Lemma evolution_of_mean vr :
  evolution_of vr ==
  Qmin 1 (0.8 + 0.2 * ((raw_metric vr "structural_health" +
                        raw_metric vr "content_health" +
                        raw_metric vr "process_health" +
                        raw_metric vr "security_health" +
                        raw_metric vr "overall_health") / 5)).
Proof.
  unfold evolution_of, _calculate_evolution_health, _extract_base_metrics.
  fold (raw_metric vr "structural_health") (raw_metric vr "content_health")
       (raw_metric vr "process_health") (raw_metric vr "security_health")
       (raw_metric vr "overall_health").
  cbn [odict_values map snd py_sum fold_left length Z.of_nat Pos.of_succ_nat
       Pos.succ inject_Z].
  rewrite py_min_Qmin.
  generalize (raw_metric vr "structural_health") (raw_metric vr "content_health")
             (raw_metric vr "process_health") (raw_metric vr "security_health")
             (raw_metric vr "overall_health").
  intros s c p sec oh.
  change (inject_Z (Z.of_nat 5)) with 5.
  unfold Qdiv. change (/ 5) with (1 # 5).
  destruct (Q.min_spec 1.0 (0.8 + (0 + s + c + p + sec + oh) * (1 # 5) * 0.2))
    as [[H1 E1] | [H1 E1]];
  destruct (Q.min_spec 1 (0.8 + 0.2 * ((s + c + p + sec + oh) * (1 # 5))))
    as [[H2 E2] | [H2 E2]];
  rewrite E1, E2; lra.
Qed.

Lemma compliance_level_exemplary o :
  0.90 <= o -> _determine_compliance_level o = "exemplary".
Proof.
  intros H. unfold _determine_compliance_level.
  apply Qgeb_true in H. by rewrite H.
Qed.

Lemma health_grade_A_plus o : 0.95 <= o -> _calculate_health_grade o = "A+".
Proof.
  intros H. unfold _calculate_health_grade.
  apply Qgeb_true in H. by rewrite H.
Qed.

Lemma status_excellent v th : th_excellent th <= v -> _determine_status v th = "excellent".
Proof.
  intros H. unfold _determine_status. apply Qgeb_true in H. by rewrite H.
Qed.

Lemma lookup_category_map s c p sec e :
  category_map s c p sec e !! "structural_health" = Some s /\
  category_map s c p sec e !! "content_health" = Some c /\
  category_map s c p sec e !! "process_health" = Some p /\
  category_map s c p sec e !! "security_health" = Some sec /\
  category_map s c p sec e !! "evolution_health" = Some e.
Proof.
  unfold category_map.
  repeat split;
    repeat (rewrite ?lookup_insert_eq; rewrite ?lookup_insert_ne by done);
    reflexivity.
Qed.


Lemma py_sum_five a b c d e : py_sum [a; b; c; d; e] == a + b + c + d + e.
Proof. unfold py_sum. cbn [fold_left]. lra. Qed.

Lemma metric_core_imap base_metrics (defs : odict MetricDefinition) :
  forall stamps : nat -> Z,
    map metric_core (imap (fun i => metric_at base_metrics (stamps i)) defs) =
    map (fun item => metric_core (metric_at base_metrics 0%Z item)) defs.
Proof.
  induction defs as [|item defs IH]; intros stamps; [reflexivity|].
  cbn [imap map]. f_equal. apply (IH (stamps ∘ S)).
Qed.

Lemma run_summary vr hd w :
  history_readable hd ->
  exists pre score w',
    score_before_trends vr w = Return (pre, advance 5 w) /\
    calculate_compliance_score vr hd w = Return (score, w') /\
    category_scores score =
      category_map (raw_metric vr "structural_health") (raw_metric vr "content_health")
        (raw_metric vr "process_health") (raw_metric vr "security_health")
        (evolution_of vr) /\
    overall_score pre =
      py_sum [raw_metric vr "structural_health" * 0.25;
              raw_metric vr "content_health" * 0.25;
              raw_metric vr "process_health" * 0.20;
              raw_metric vr "security_health" * 0.15;
              evolution_of vr * 0.15] /\
    compliance_level score = _determine_compliance_level (overall_score pre) /\
    health_grade score = _calculate_health_grade (overall_score pre) /\
    map metric_core (metrics score) =
      map (fun item => metric_core (metric_at (_extract_base_metrics vr) 0%Z item))
          metric_definitions /\
    (truthy hd = false ->
     overall_score score = overall_score pre /\ trend_analysis score = ∅) /\
    (truthy hd = true ->
     exists trends,
       _analyze_trends (default [] hd) pre = Return trends /\
       trend_analysis score = trends /\
       overall_score score =
         overall_score (_adjust_score_for_trends (set_trend_analysis trends pre))).
Proof.
  intros Hread.
  destruct (run_fields vr hd w Hread)
    as (pre & score & w' & Hpre & Hrun & Hc & Hl & Hg & Hm & _ & Hoff & Hon).
  destruct (score_before_trends_returns vr w)
    as (pre' & Hpre' & Hc' & Ho' & Hl' & Hg' & Hm' & Ht' & _).
  rewrite Hpre in Hpre'. injection Hpre' as <-.
  exists pre, score, w'.
  split; [assumption|]. split; [assumption|].
  split; [by rewrite Hc|]. split; [assumption|].
  split; [by rewrite Hl|]. split; [by rewrite Hg|].
  split.
  { rewrite Hm, Hm'.
    apply (metric_core_imap _ _ (fun i => clock w (i + ticks w)%nat)). }
  split.
  - intros Hf. destruct (Hoff Hf) as (Ho1 & Ht1 & _).
    split; [exact Ho1 | by rewrite Ht1].
  - intros Ht. destruct (Hon Ht) as (trends & ? & ? & ? & _). eauto.
Qed.

(** ** Evolution score: the mean runs over the five base metrics *)

(** C1 (as amended). The evolution category score is
    [min(1.0, 0.8 + 0.2 * mean)] where the mean is taken over the five
    base metrics the engine extracts: the four raw category scores and
    [overall_health], each 0.0 when absent.  With all five equal to 1.0
    the evolution score is 1.0, the level is exemplary and the grade is
    A+, and without history the overall score is 1.0. *)
Theorem evolution_is_mean_of_base_metrics vr hd w :
  history_readable hd ->
  exists score w' e,
    calculate_compliance_score vr hd w = Return (score, w') /\
    category_scores score !! "evolution_health" = Some e /\
    e == Qmin 1 (0.8 + 0.2 * ((raw_metric vr "structural_health" +
                               raw_metric vr "content_health" +
                               raw_metric vr "process_health" +
                               raw_metric vr "security_health" +
                               raw_metric vr "overall_health") / 5)) /\
    (raw_metric vr "structural_health" == 1 ->
     raw_metric vr "content_health" == 1 ->
     raw_metric vr "process_health" == 1 ->
     raw_metric vr "security_health" == 1 ->
     raw_metric vr "overall_health" == 1 ->
     e == 1 /\
     compliance_level score = "exemplary" /\
     health_grade score = "A+" /\
     (truthy hd = false -> overall_score score == 1)).
Proof.
  intros Hread.
  destruct (run_summary vr hd w Hread)
    as (pre & score & w' & _ & Hrun & Hc & Ho & Hl & Hg & _ & Hoff & _).
  exists score, w', (evolution_of vr).
  split; [assumption|].
  split; [rewrite Hc; apply lookup_category_map|].
  split; [apply evolution_of_mean|].
  intros Hs Hcn Hp Hsec Hoh.
  assert (He : evolution_of vr == 1).
  { rewrite evolution_of_mean, Hs, Hcn, Hp, Hsec, Hoh. reflexivity. }
  assert (Hone : overall_score pre == 1).
  { rewrite Ho, py_sum_five, Hs, Hcn, Hp, Hsec, He. reflexivity. }
  split; [assumption|].
  split; [rewrite Hl; apply compliance_level_exemplary; rewrite Hone; lra|].
  split; [rewrite Hg; apply health_grade_A_plus; rewrite Hone; lra|].
  intros Hf. destruct (Hoff Hf) as [-> _]. assumption.
Qed.

Lemma evolution_is_mean_of_base_metrics_witness :
  exists score w' e,
    calculate_compliance_score scenario_A_full None epoch_world = Return (score, w') /\
    category_scores score !! "evolution_health" = Some e /\
    e == 1 /\ compliance_level score = "exemplary" /\ health_grade score = "A+" /\
    overall_score score == 1.
Proof.
  destruct (evolution_is_mean_of_base_metrics scenario_A_full None epoch_world)
    as (score & w' & e & Hrun & He & _ & Hscenario).
  - left. simpl. lia.
  - destruct Hscenario as (H1 & Hl & Hg & Ho); try (vm_compute; reflexivity).
    exists score, w', e. repeat split; try assumption. apply Ho. reflexivity.
Defined.

(** C1, the claim as stated fails: with the four raw scores at 1.0 and no
    [overall_health] entry the mean runs over five values, one of them
    0.0, so the evolution score is 0.96 and the overall score 0.994. *)
Lemma evolution_not_mean_of_four :
  exists score w' e,
    calculate_compliance_score scenario_A_four None epoch_world = Return (score, w') /\
    category_scores score !! "evolution_health" = Some e /\
    e == 0.96 /\
    ~ e == Qmin 1 (0.8 + 0.2 * ((raw_metric scenario_A_four "structural_health" +
                                 raw_metric scenario_A_four "content_health" +
                                 raw_metric scenario_A_four "process_health" +
                                 raw_metric scenario_A_four "security_health") / 4)) /\
    overall_score score == 0.994 /\
    ~ overall_score score == 1.
Proof.
  eexists _, _, _. split; [vm_compute; reflexivity|].
  split; [vm_compute; reflexivity|].
  repeat split; vm_compute; congruence.
Qed.

(** ** Empty raw metrics *)





(** ** Weighted overall score *)

(** C6 (as amended). When the four raw category scores lie in [0,1] and
    the [overall_health] entry (0.0 when absent) is non-negative, the
    overall score before trend adjustment is the sum of the five category
    scores times their configured weights and lies in [0,1]. *)
Theorem overall_is_weighted_sum_in_unit_interval vr w :
  0 <= raw_metric vr "structural_health" <= 1 ->
  0 <= raw_metric vr "content_health" <= 1 ->
  0 <= raw_metric vr "process_health" <= 1 ->
  0 <= raw_metric vr "security_health" <= 1 ->
  0 <= raw_metric vr "overall_health" ->
  exists pre w' s c p sec e,
    score_before_trends vr w = Return (pre, w') /\
    category_scores pre !! "structural_health" = Some s /\
    category_scores pre !! "content_health" = Some c /\
    category_scores pre !! "process_health" = Some p /\
    category_scores pre !! "security_health" = Some sec /\
    category_scores pre !! "evolution_health" = Some e /\
    overall_score pre == s * 0.25 + c * 0.25 + p * 0.20 + sec * 0.15 + e * 0.15 /\
    0 <= overall_score pre <= 1.
Proof.
  intros Hs Hc Hp Hsec Hoh.
  destruct (score_before_trends_returns vr w) as (pre & Hpre & Hmap & Ho & _).
  exists pre, (advance 5 w), (raw_metric vr "structural_health"),
    (raw_metric vr "content_health"), (raw_metric vr "process_health"),
    (raw_metric vr "security_health"), (evolution_of vr).
  split; [assumption|]. rewrite Hmap.
  destruct (lookup_category_map
              (raw_metric vr "structural_health") (raw_metric vr "content_health")
              (raw_metric vr "process_health") (raw_metric vr "security_health")
              (evolution_of vr)) as (Ls & Lc & Lp & Lsec & Le).
  do 5 (split; [assumption|]).
  rewrite Ho, py_sum_five. split; [lra|].
  pose proof (evolution_of_mean vr) as He.
  revert He. generalize (evolution_of vr). intros e He.
  unfold Qdiv in He. change (/ 5) with (1 # 5) in He.
  destruct (Q.min_spec 1
              (0.8 + 0.2 * ((raw_metric vr "structural_health" +
                             raw_metric vr "content_health" +
                             raw_metric vr "process_health" +
                             raw_metric vr "security_health" +
                             raw_metric vr "overall_health") * (1 # 5))))
    as [[Hlt Hmin] | [Hle Hmin]];
    rewrite Hmin in He; split; lra.
Qed.

Lemma overall_is_weighted_sum_in_unit_interval_witness :
  exists pre w',
    score_before_trends half_scores epoch_world = Return (pre, w') /\
    0 <= overall_score pre <= 1.
Proof.
  destruct (overall_is_weighted_sum_in_unit_interval half_scores epoch_world)
    as (pre & w' & s & c & p & sec & e & Hrun & _ & _ & _ & _ & _ & _ & Hbound).
  1-4: split; vm_compute; discriminate.
  - vm_compute. discriminate.
  - exists pre, w'. split; assumption.
Defined.

(** C6, the claim as stated fails: [overall_health] is averaged into the
    evolution score, so a raw vector in [0,1]^4 (here all 0.0) with
    [overall_health = -100] yields evolution -3.2 and overall -0.48. *)
Lemma overall_below_zero :
  (0 <= raw_metric negative_overall_health "structural_health" <= 1) /\
  (0 <= raw_metric negative_overall_health "content_health" <= 1) /\
  (0 <= raw_metric negative_overall_health "process_health" <= 1) /\
  (0 <= raw_metric negative_overall_health "security_health" <= 1) /\
  exists pre w',
    score_before_trends negative_overall_health epoch_world = Return (pre, w') /\
    overall_score pre == -0.48 /\
    ~ 0 <= overall_score pre.
Proof.
  do 4 (split; [split; vm_compute; discriminate|]).
  eexists _, _. split; [vm_compute; reflexivity|].
  split; vm_compute; [reflexivity|]. intros H. apply H. reflexivity.
Qed.

(** ** Floor of the evolution score *)

Lemma map_eq_elem_of {A B C} (f : A -> C) (g : B -> C) (l1 : list A) (l2 : list B) :
  map f l1 = map g l2 ->
  (forall x, x ∈ l1 -> exists y, y ∈ l2 /\ f x = g y) /\
  (forall y, y ∈ l2 -> exists x, x ∈ l1 /\ f x = g y).
Proof.
  intros Heq. split.
  - intros x Hx. apply (list_elem_of_fmap_2 f) in Hx.
    change (f <$> l1) with (map f l1) in Hx. rewrite Heq in Hx.
    change (map g l2) with (g <$> l2) in Hx.
    apply list_elem_of_fmap in Hx as (y & Hy & Hin). eauto.
  - intros y Hy. apply (list_elem_of_fmap_2 g) in Hy.
    change (g <$> l2) with (map g l2) in Hy. rewrite <- Heq in Hy.
    change (map f l1) with (f <$> l1) in Hy.
    apply list_elem_of_fmap in Hy as (x & Hx & Hin). eauto.
Qed.

Lemma evolution_definition (item : string * MetricDefinition) :
  item ∈ metric_definitions ->
  item.1 = "evolution_health" ->
  th_excellent (def_thresholds item.2) = 0.80.
Proof.
  unfold metric_definitions, _load_metric_definitions. intros Hin Hname.
  repeat (apply elem_of_cons in Hin as [-> | Hin];
          [first [discriminate Hname | reflexivity]|]).
  by apply elem_of_nil in Hin.
Qed.

Lemma evolution_definition_present :
  exists item : string * MetricDefinition,
    item ∈ metric_definitions /\ item.1 = "evolution_health".
Proof.
  eexists (_, _). split; [|reflexivity].
  unfold metric_definitions, _load_metric_definitions.
  do 4 apply list_elem_of_further. apply list_elem_of_here.
Qed.

(** C10 (as amended). When the four raw category scores and the
    [overall_health] entry (0.0 when absent) are non-negative, the
    evolution category score lies in [0.8, 1.0], the evolution
    [HealthMetric] has status "excellent", and the overall score before
    trend adjustment is at least 0.12. *)
Theorem evolution_floor vr hd w :
  0 <= raw_metric vr "structural_health" ->
  0 <= raw_metric vr "content_health" ->
  0 <= raw_metric vr "process_health" ->
  0 <= raw_metric vr "security_health" ->
  0 <= raw_metric vr "overall_health" ->
  history_readable hd ->
  exists pre score w' e,
    score_before_trends vr w = Return (pre, advance 5 w) /\
    calculate_compliance_score vr hd w = Return (score, w') /\
    category_scores score !! "evolution_health" = Some e /\
    0.8 <= e <= 1 /\
    (exists metric, metric ∈ metrics score /\ name metric = "evolution_health") /\
    (forall metric,
       metric ∈ metrics score -> name metric = "evolution_health" ->
       status metric = "excellent") /\
    0.12 <= overall_score pre.
Proof.
  intros Hs Hc Hp Hsec Hoh Hread.
  destruct (run_summary vr hd w Hread)
    as (pre & score & w' & Hpre & Hrun & Hmap & Ho & _ & _ & Hm & _).
  assert (He : 0.8 <= evolution_of vr <= 1).
  { pose proof (evolution_of_mean vr) as He.
    unfold Qdiv in He. change (/ 5) with (1 # 5) in He.
    destruct (Q.min_spec 1
                (0.8 + 0.2 * ((raw_metric vr "structural_health" +
                               raw_metric vr "content_health" +
                               raw_metric vr "process_health" +
                               raw_metric vr "security_health" +
                               raw_metric vr "overall_health") * (1 # 5))))
      as [[Hlt Hmin] | [Hle Hmin]];
      rewrite Hmin in He; split; lra. }
  exists pre, score, w', (evolution_of vr).
  split; [assumption|]. split; [assumption|].
  split; [rewrite Hmap; apply lookup_category_map|].
  split; [assumption|].
  destruct (map_eq_elem_of _ _ _ _ Hm) as [Hfrom Hto].
  split; [|split].
  - destruct evolution_definition_present as (item & Hitem & Hname).
    destruct (Hto item Hitem) as (metric & Hin & Hcore).
    exists metric. split; [assumption|].
    unfold metric_core in Hcore. injection Hcore as -> _ _ _ _.
    exact Hname.
  - intros metric Hin Hname.
    destruct (Hfrom metric Hin) as (item & Hitem & Hcore).
    unfold metric_core in Hcore. injection Hcore as Hn _ _ _ Hst.
    cbn [metric_at name status] in Hn, Hst.
    rewrite Hn in Hname. rewrite Hst.
    pose proof (evolution_definition item Hitem Hname) as Hth.
    destruct item as [key definition]. cbn [fst snd] in *. subst key.
    rewrite category_score_evolution.
    apply status_excellent. rewrite Hth. lra.
  - rewrite Ho, py_sum_five. lra.
Qed.

Lemma evolution_floor_witness :
  exists pre score w' e,
    score_before_trends ∅ epoch_world = Return (pre, advance 5 epoch_world) /\
    calculate_compliance_score ∅ None epoch_world = Return (score, w') /\
    category_scores score !! "evolution_health" = Some e /\
    0.8 <= e <= 1 /\
    0.12 <= overall_score pre.
Proof.
  destruct (evolution_floor ∅ None epoch_world)
    as (pre & score & w' & e & Hpre & Hrun & He & Hb & _ & _ & Ho).
  1-5: vm_compute; discriminate.
  - left. simpl. lia.
  - exists pre, score, w', e. repeat split; try assumption; apply Hb.
Defined.

(** C10, the claim as stated fails: the four raw category scores are
    non-negative (all 0.0) but [overall_health = -1] enters the mean, so
    the evolution score is 0.76, its status is "good" and the overall
    score before adjustment is 0.114. *)
Lemma evolution_below_floor :
  (0 <= raw_metric slightly_negative_overall_health "structural_health") /\
  (0 <= raw_metric slightly_negative_overall_health "content_health") /\
  (0 <= raw_metric slightly_negative_overall_health "process_health") /\
  (0 <= raw_metric slightly_negative_overall_health "security_health") /\
  exists pre score w' e,
    score_before_trends slightly_negative_overall_health epoch_world =
      Return (pre, advance 5 epoch_world) /\
    calculate_compliance_score slightly_negative_overall_health None epoch_world =
      Return (score, w') /\
    category_scores score !! "evolution_health" = Some e /\
    e == 0.76 /\ ~ 0.8 <= e /\
    map (fun metric => (name metric, status metric)) (metrics score) =
      [("structural_health", "critical"); ("content_health", "critical");
       ("process_health", "critical"); ("security_health", "critical");
       ("evolution_health", "good")] /\
    overall_score pre == 0.114 /\ ~ 0.12 <= overall_score pre.
Proof.
  do 4 (split; [vm_compute; discriminate|]).
  eexists _, _, _, _. split; [vm_compute; reflexivity|].
  split; [vm_compute; reflexivity|].
  split; [vm_compute; reflexivity|].
  split; [vm_compute; reflexivity|].
  split; [vm_compute; intros H; apply H; reflexivity|].
  split; [vm_compute; reflexivity|].
  split; [vm_compute; reflexivity|].
  vm_compute. intros H; apply H; reflexivity.
Qed.

(** ** Trend adjustment *)

(** C7. For a pre-adjustment overall score [s] in [0,1]: an "improving"
    overall trend gives [min(1.0, s * 1.02)], a "declining" one gives
    [max(0.0, s * 0.98)], "stable" and "insufficient_data" leave [s]
    unchanged, and the adjusted score stays in [0,1]. *)
Theorem adjustment_per_trend score :
  0 <= overall_score score <= 1 ->
  let s := overall_score score in
  let overall_trend := default "stable" (trend_analysis score !! "overall") in
  let s' := overall_score (_adjust_score_for_trends score) in
  (overall_trend = "improving" -> s' == Qmin 1 (s * 1.02)) /\
  (overall_trend = "declining" -> s' == Qmax 0 (s * 0.98)) /\
  (overall_trend = "stable" \/ overall_trend = "insufficient_data" -> s' = s) /\
  0 <= s' <= 1.
Proof.
  intros Hs s overall_trend s'. subst s'. rewrite adjust_overall_score.
  fold overall_trend. fold s.
  split; [|split; [|split]].
  - intros ->. cbn [String.eqb Ascii.eqb Bool.eqb]. rewrite py_min_Qmin.
    destruct (Q.min_spec 1.0 (s * 1.02)) as [[? ->] | [? ->]];
    destruct (Q.min_spec 1 (s * 1.02)) as [[? ->] | [? ->]]; lra.
  - intros ->. cbn [String.eqb Ascii.eqb Bool.eqb]. rewrite py_max_Qmax.
    destruct (Q.max_spec 0.0 (s * 0.98)) as [[? ->] | [? ->]];
    destruct (Q.max_spec 0 (s * 0.98)) as [[? ->] | [? ->]]; lra.
  - intros [-> | ->]; reflexivity.
  - destruct (String.eqb overall_trend "improving");
      [|destruct (String.eqb overall_trend "declining")].
    + destruct (py_min_cases 1.0 (s * 1.02)) as [[? ->] | [? ->]]; subst s; lra.
    + destruct (py_max_cases 0.0 (s * 0.98)) as [[? ->] | [? ->]]; subst s; lra.
    + assumption.
Qed.

Lemma adjustment_per_trend_witness :
  overall_score (_adjust_score_for_trends improving_half) == Qmin 1 (0.5 * 1.02) /\
  0 <= overall_score (_adjust_score_for_trends improving_half) <= 1.
Proof.
  destruct (adjustment_per_trend improving_half) as (Hup & _ & _ & Hbound).
  - split; vm_compute; discriminate.
  - split; [apply Hup; reflexivity | exact Hbound].
Defined.

(** ** Classification precedes adjustment *)

(** C8. In a run with history present, [compliance_level] and
    [health_grade] of the result are computed from the overall score as
    it stands before the trend adjustment, while [overall_score] holds
    the adjusted value. *)
Theorem classification_precedes_adjustment vr hd w :
  truthy hd = true ->
  history_readable hd ->
  exists pre trends score w',
    score_before_trends vr w = Return (pre, advance 5 w) /\
    _analyze_trends (default [] hd) pre = Return trends /\
    calculate_compliance_score vr hd w = Return (score, w') /\
    trend_analysis score = trends /\
    compliance_level score = _determine_compliance_level (overall_score pre) /\
    health_grade score = _calculate_health_grade (overall_score pre) /\
    overall_score score =
      (let overall_trend := default "stable" (trends !! "overall") in
       if String.eqb overall_trend "improving"
       then py_min 1.0 (overall_score pre * 1.02)
       else if String.eqb overall_trend "declining"
       then py_max 0.0 (overall_score pre * 0.98)
       else overall_score pre).
Proof.
  intros Hpresent Hread.
  destruct (run_summary vr hd w Hread)
    as (pre & score & w' & Hpre & Hrun & _ & _ & Hl & Hg & _ & _ & Hon).
  destruct (Hon Hpresent) as (trends & Htr & Hta & Ho).
  exists pre, trends, score, w'.
  do 6 (split; [assumption|]).
  rewrite Ho, adjust_overall_score. reflexivity.
Qed.

Lemma classification_precedes_adjustment_witness :
  exists pre score w',
    score_before_trends near_perfect epoch_world = Return (pre, advance 5 epoch_world) /\
    calculate_compliance_score near_perfect (Some declining_history) epoch_world =
      Return (score, w') /\
    compliance_level score = _determine_compliance_level (overall_score pre) /\
    health_grade score = _calculate_health_grade (overall_score pre).
Proof.
  destruct (classification_precedes_adjustment near_perfect
              (Some declining_history) epoch_world)
    as (pre & trends & score & w' & Hpre & _ & Hrun & _ & Hl & Hg & _).
  - reflexivity.
  - right. repeat constructor; eexists; reflexivity.
  - exists pre, score, w'. repeat split; assumption.
Defined.

(** On this run the score before adjustment is 0.9616 (grade "A+"); the
    trend is declining, so the reported score is 0.942368, which on its
    own would grade "A". *)
Lemma grade_and_score_can_disagree :
  exists pre score w',
    score_before_trends near_perfect epoch_world = Return (pre, advance 5 epoch_world) /\
    calculate_compliance_score near_perfect (Some declining_history) epoch_world =
      Return (score, w') /\
    overall_score pre == 0.9616 /\
    overall_score score == 0.942368 /\
    health_grade score = "A+" /\
    _calculate_health_grade (overall_score score) = "A".
Proof.
  eexists _, _, _. split; [vm_compute; reflexivity|].
  split; [vm_compute; reflexivity|].
  repeat split; vm_compute; reflexivity.
Qed.

(** ** Histories with fewer than two entries *)

Lemma analyze_trends_single entry score :
  _analyze_trends [entry] score = Return {[ "overall" := "insufficient_data" ]}.
Proof. reflexivity. Qed.

(** C4 (as amended). For a history with exactly one entry the
    [trend_analysis] of the result is [{"overall": "insufficient_data"}];
    for an empty or absent history the [if historical_data:] guard skips
    the analysis and [trend_analysis] stays empty.  In both cases no
    category key is present and the overall score is not adjusted. *)
Theorem short_history_trend_analysis vr hd w :
  (length (default [] hd) < 2)%nat ->
  exists pre score w',
    score_before_trends vr w = Return (pre, advance 5 w) /\
    calculate_compliance_score vr hd w = Return (score, w') /\
    overall_score score = overall_score pre /\
    (forall key, key <> "overall" -> trend_analysis score !! key = None) /\
    (length (default [] hd) = 1%nat ->
     trend_analysis score = {[ "overall" := "insufficient_data" ]}) /\
    (length (default [] hd) = 0%nat -> trend_analysis score = ∅).
Proof.
  intros Hshort.
  destruct (run_summary vr hd w (or_introl Hshort))
    as (pre & score & w' & Hpre & Hrun & _ & _ & _ & _ & _ & Hoff & Hon).
  exists pre, score, w'. split; [assumption|]. split; [assumption|].
  destruct hd as [[|entry [|entry' l]]|]; simpl in Hshort; try lia.
  - destruct (Hoff eq_refl) as [Ho Ht]. rewrite Ht.
    split; [assumption|]. split; [intros; apply lookup_empty|].
    split; [intros [=] | reflexivity].
  - destruct (Hon eq_refl) as (trends & Htr & Ht & Ho).
    assert (Hsingle : _analyze_trends [entry] pre = Return trends) by exact Htr.
    rewrite analyze_trends_single in Hsingle. injection Hsingle as <-.
    rewrite Ht. split.
    { rewrite Ho, adjust_overall_score. reflexivity. }
    split; [intros key Hkey; by apply lookup_singleton_ne|].
    split; [reflexivity | intros [=]].
  - destruct (Hoff eq_refl) as [Ho Ht]. rewrite Ht.
    split; [assumption|]. split; [intros; apply lookup_empty|].
    split; [intros [=] | reflexivity].
Qed.

Lemma short_history_trend_analysis_witness :
  exists pre score w',
    score_before_trends ∅ epoch_world = Return (pre, advance 5 epoch_world) /\
    calculate_compliance_score ∅ (Some [lone_snapshot]) epoch_world =
      Return (score, w') /\
    overall_score score = overall_score pre /\
    trend_analysis score = {[ "overall" := "insufficient_data" ]}.
Proof.
  destruct (short_history_trend_analysis ∅ (Some [lone_snapshot]) epoch_world)
    as (pre & score & w' & Hpre & Hrun & Ho & _ & Hone & _).
  - simpl. lia.
  - exists pre, score, w'. repeat split; try assumption. apply Hone. reflexivity.
Defined.

(** C4, the claim as stated fails on the empty list: the run skips the
    trend analysis, so [trend_analysis] is empty and has no "overall"
    key. *)
Lemma empty_history_has_no_overall_key :
  exists score w',
    calculate_compliance_score ∅ (Some []) epoch_world = Return (score, w') /\
    trend_analysis score !! "overall" = None /\
    trend_analysis score <> {[ "overall" := "insufficient_data" ]}.
Proof.
  eexists _, _. split; [vm_compute; reflexivity|].
  split; [vm_compute; reflexivity|].
  intros H. apply (f_equal (fun m : gmap string string => m !! "overall")) in H.
  vm_compute in H. discriminate H.
Qed.

(** ** Determinism of the scoring run *)

Lemma score_eta (s1 s2 : ComplianceScore) :
  overall_score s1 = overall_score s2 ->
  category_scores s1 = category_scores s2 ->
  metrics s1 = metrics s2 ->
  compliance_level s1 = compliance_level s2 ->
  health_grade s1 = health_grade s2 ->
  trend_analysis s1 = trend_analysis s2 ->
  recommendations s1 = recommendations s2 ->
  s1 = s2.
Proof. destruct s1, s2. cbn. intros. by subst. Qed.

Lemma without_stamp_imap base_metrics (defs : odict MetricDefinition) :
  forall stamps : nat -> Z,
    map without_stamp (imap (fun i => metric_at base_metrics (stamps i)) defs) =
    map (metric_at base_metrics 0%Z) defs.
Proof.
  induction defs as [|item defs IH]; intros stamps; [reflexivity|].
  cbn [imap map]. f_equal. apply (IH (stamps ∘ S)).
Qed.

Lemma timeless_before_trends vr w1 w2 pre1 pre2 w1' w2' :
  score_before_trends vr w1 = Return (pre1, w1') ->
  score_before_trends vr w2 = Return (pre2, w2') ->
  timeless pre1 = timeless pre2.
Proof.
  intros H1 H2.
  destruct (score_before_trends_returns vr w1)
    as (p1 & E1 & Hc1 & Ho1 & Hl1 & Hg1 & Hm1 & Ht1 & Hr1).
  destruct (score_before_trends_returns vr w2)
    as (p2 & E2 & Hc2 & Ho2 & Hl2 & Hg2 & Hm2 & Ht2 & Hr2).
  rewrite H1 in E1. injection E1 as <- _.
  rewrite H2 in E2. injection E2 as <- _.
  apply score_eta; unfold timeless;
    cbn [overall_score category_scores metrics compliance_level health_grade
         trend_analysis recommendations set_metrics]; try congruence.
  rewrite Hm1, Hm2.
  rewrite (without_stamp_imap _ _ (fun i => clock w1 (i + ticks w1)%nat)).
  rewrite (without_stamp_imap _ _ (fun i => clock w2 (i + ticks w2)%nat)).
  reflexivity.
Qed.

Lemma Return_inj {A} (a b : A) : Return a = Return b -> a = b.
Proof. by intros [=]. Qed.

Lemma analyze_trends_ignores_score hd s1 s2 :
  _analyze_trends hd s1 = _analyze_trends hd s2.
Proof. reflexivity. Qed.

Lemma timeless_adjust score :
  timeless (_adjust_score_for_trends score) =
  _adjust_score_for_trends (timeless score).
Proof.
  destruct (adjust_keeps_classification score) as (Hc & Hl & Hg & Ht & Hr).
  destruct (adjust_keeps_classification (timeless score))
    as (Hc' & Hl' & Hg' & Ht' & Hr').
  apply score_eta.
  - change (overall_score (_adjust_score_for_trends score) =
            overall_score (_adjust_score_for_trends (timeless score))).
    rewrite !adjust_overall_score. reflexivity.
  - change (category_scores (_adjust_score_for_trends score) =
            category_scores (_adjust_score_for_trends (timeless score))).
    rewrite Hc, Hc'. reflexivity.
  - change (map without_stamp (metrics (_adjust_score_for_trends score)) =
            metrics (_adjust_score_for_trends (timeless score))).
    rewrite !adjust_metrics. unfold timeless.
    cbn [metrics set_metrics trend_analysis].
    rewrite !map_map. reflexivity.
  - change (compliance_level (_adjust_score_for_trends score) =
            compliance_level (_adjust_score_for_trends (timeless score))).
    rewrite Hl, Hl'. reflexivity.
  - change (health_grade (_adjust_score_for_trends score) =
            health_grade (_adjust_score_for_trends (timeless score))).
    rewrite Hg, Hg'. reflexivity.
  - change (trend_analysis (_adjust_score_for_trends score) =
            trend_analysis (_adjust_score_for_trends (timeless score))).
    rewrite Ht, Ht'. reflexivity.
  - change (recommendations (_adjust_score_for_trends score) =
            recommendations (_adjust_score_for_trends (timeless score))).
    rewrite Hr, Hr'. reflexivity.
Qed.

Lemma timeless_analyze_and_adjust hd score :
  analyze_and_adjust hd (timeless score) =
  match analyze_and_adjust hd score with
  | Return adjusted => Return (timeless adjusted)
  | Raise e => Raise e
  end.
Proof.
  unfold analyze_and_adjust. destruct (truthy hd); [|reflexivity].
  rewrite (analyze_trends_ignores_score _ (timeless score) score).
  destruct (_analyze_trends (default [] hd) score) as [trends|e]; [|reflexivity].
  cbn [mbind Py_bind mret Py_ret]. by rewrite timeless_adjust.
Qed.

Lemma metric_flags_ignore_stamps (ms : list HealthMetric) :
  forall acc,
    fold_left
      (fun recommendations metric =>
         if String.eqb (status metric) "critical"
         then recommendations ++ [RecCritical (name metric) (value metric)]
         else if String.eqb (status metric) "poor"
         then recommendations ++ [RecBelowThreshold (name metric) (value metric)]
         else if String.eqb (trend metric) "declining"
         then recommendations ++ [RecDeclining (name metric)]
         else recommendations)
      (map without_stamp ms) acc =
    fold_left
      (fun recommendations metric =>
         if String.eqb (status metric) "critical"
         then recommendations ++ [RecCritical (name metric) (value metric)]
         else if String.eqb (status metric) "poor"
         then recommendations ++ [RecBelowThreshold (name metric) (value metric)]
         else if String.eqb (trend metric) "declining"
         then recommendations ++ [RecDeclining (name metric)]
         else recommendations)
      ms acc.
Proof.
  induction ms as [|metric ms IH]; intros acc; [reflexivity|].
  cbn [map fold_left]. rewrite IH. reflexivity.
Qed.

Lemma recommendations_ignore_stamps score :
  _generate_recommendations (timeless score) = _generate_recommendations score.
Proof.
  unfold _generate_recommendations, timeless.
  cbn [metrics overall_score health_grade set_metrics].
  by rewrite metric_flags_ignore_stamps.
Qed.

(** C9. Two calls with the same validation result and the same
    historical data, from any two states of the clock and of the history
    file (in particular one call after the other), either both raise the
    same exception or both return, and then the two results agree in
    every field; the metrics agree in everything but [last_updated]. *)
Theorem scoring_is_deterministic vr hd w1 w2 :
  match calculate_compliance_score vr hd w1,
        calculate_compliance_score vr hd w2 with
  | Return (s1, _), Return (s2, _) =>
      overall_score s1 = overall_score s2 /\
      category_scores s1 = category_scores s2 /\
      map without_stamp (metrics s1) = map without_stamp (metrics s2) /\
      compliance_level s1 = compliance_level s2 /\
      health_grade s1 = health_grade s2 /\
      trend_analysis s1 = trend_analysis s2 /\
      recommendations s1 = recommendations s2
  | Raise e1, Raise e2 => e1 = e2
  | _, _ => False
  end.
Proof.
  unfold calculate_compliance_score.
  destruct (score_before_trends_returns vr w1) as (pre1 & E1 & _).
  destruct (score_before_trends_returns vr w2) as (pre2 & E2 & _).
  pose proof (timeless_before_trends _ _ _ _ _ _ _ E1 E2) as Hpre.
  rewrite E1, E2. cbn [mbind Py_bind].
  pose proof (timeless_analyze_and_adjust hd pre1) as H1.
  pose proof (timeless_analyze_and_adjust hd pre2) as H2.
  rewrite Hpre in H1. rewrite H1 in H2. clear H1 Hpre.
  destruct (analyze_and_adjust hd pre1) as [a1|e1],
           (analyze_and_adjust hd pre2) as [a2|e2];
    try discriminate H2; cbn [mbind Py_bind mret Py_ret].
  - apply Return_inj in H2. rename H2 into Ha.
    assert (Hrec : _generate_recommendations a1 = _generate_recommendations a2).
    { transitivity (_generate_recommendations (timeless a1));
        [symmetry; apply recommendations_ignore_stamps|].
      rewrite Ha. apply recommendations_ignore_stamps. }
    cbn [overall_score category_scores metrics compliance_level health_grade
         trend_analysis recommendations set_recommendations].
    split; [exact (f_equal overall_score Ha)|].
    split; [exact (f_equal category_scores Ha)|].
    split; [exact (f_equal metrics Ha)|].
    split; [exact (f_equal compliance_level Ha)|].
    split; [exact (f_equal health_grade Ha)|].
    split; [exact (f_equal trend_analysis Ha)|].
    exact Hrec.
  - by injection H2.
Qed.

(** ** Recommendations per metric *)

Lemma metric_loop_flags (ms : list HealthMetric) :
  forall acc,
    fold_left
      (fun recommendations metric =>
         if String.eqb (status metric) "critical"
         then recommendations ++ [RecCritical (name metric) (value metric)]
         else if String.eqb (status metric) "poor"
         then recommendations ++ [RecBelowThreshold (name metric) (value metric)]
         else if String.eqb (trend metric) "declining"
         then recommendations ++ [RecDeclining (name metric)]
         else recommendations)
      ms acc =
    acc ++ flat_map metric_flags ms.
Proof.
  induction ms as [|metric ms IH]; intros acc; cbn [fold_left flat_map].
  - by rewrite app_nil_r.
  - rewrite IH. unfold metric_flags at 2.
    destruct (String.eqb (status metric) "critical");
      [|destruct (String.eqb (status metric) "poor");
        [|destruct (String.eqb (trend metric) "declining")]];
      rewrite <- ?app_assoc; cbn [app]; by rewrite ?app_nil_r.
Qed.

Lemma generate_recommendations_shape score :
  exists tail,
    _generate_recommendations score = flat_map metric_flags (metrics score) ++ tail /\
    forall r, In r tail -> In r global_flags.
Proof.
  unfold _generate_recommendations. rewrite metric_loop_flags. cbn [app].
  destruct (Qltb (overall_score score) 0.5);
  destruct (existsb (String.eqb (health_grade score)) ["D"; "F"]);
  destruct (Qgtb (overall_score score) 0.85);
  rewrite <- ?app_assoc; cbn [app];
  (eexists; split; [try reflexivity; by rewrite app_nil_r|]);
  unfold global_flags; cbn [In]; tauto.
Qed.

Lemma declining_flag_origin score key :
  In (RecDeclining key) (_generate_recommendations score) <->
  exists metric,
    In metric (metrics score) /\ name metric = key /\
    status metric <> "critical" /\ status metric <> "poor" /\
    trend metric = "declining".
Proof.
  destruct (generate_recommendations_shape score) as (tail & -> & Htail).
  rewrite in_app_iff, in_flat_map. split.
  - intros [(metric & Hin & Hflag) | Hglobal].
    + exists metric. split; [assumption|]. unfold metric_flags in Hflag.
      destruct (String.eqb (status metric) "critical") eqn:Ec;
        [cbn in Hflag; destruct Hflag as [[=]|[]]|].
      destruct (String.eqb (status metric) "poor") eqn:Ep;
        [cbn in Hflag; destruct Hflag as [[=]|[]]|].
      destruct (String.eqb (trend metric) "declining") eqn:Ed;
        [|destruct Hflag].
      cbn in Hflag. destruct Hflag as [[= Hname]|[]].
      apply String.eqb_neq in Ec, Ep. apply String.eqb_eq in Ed. auto.
    + apply Htail in Hglobal. unfold global_flags in Hglobal. cbn in Hglobal.
      destruct Hglobal as [[=]|[[=]|[[=]|[[=]|[]]]]].
  - intros (metric & Hin & Hname & Hc & Hp & Hd). left.
    exists metric. split; [assumption|]. unfold metric_flags.
    apply String.eqb_neq in Hc, Hp. apply String.eqb_eq in Hd.
    rewrite Hc, Hp, Hd, Hname. left. reflexivity.
Qed.

Lemma status_flag_present score metric :
  In metric (metrics score) ->
  (status metric = "critical" ->
   In (RecCritical (name metric) (value metric)) (_generate_recommendations score)) /\
  (status metric = "poor" ->
   In (RecBelowThreshold (name metric) (value metric))
      (_generate_recommendations score)).
Proof.
  intros Hin.
  destruct (generate_recommendations_shape score) as (tail & -> & _).
  split; intros Hst; apply in_app_iff; left; apply in_flat_map;
    exists metric; (split; [assumption|]); unfold metric_flags; rewrite Hst;
    cbn; auto.
Qed.

Lemma same_name_same_metric (ms : list HealthMetric) :
  NoDup (map name ms) ->
  forall m1 m2, In m1 ms -> In m2 ms -> name m1 = name m2 -> m1 = m2.
Proof.
  induction ms as [|m ms IH]; intros Hnodup m1 m2 H1 H2 Hname; [destruct H1|].
  cbn [map] in Hnodup. apply NoDup_cons in Hnodup as [Hfresh Hnodup].
  destruct H1 as [-> | H1], H2 as [-> | H2]; [reflexivity| | |by apply IH].
  - exfalso. apply Hfresh. rewrite Hname. apply list_elem_of_In. by apply in_map.
  - exfalso. apply Hfresh. rewrite <- Hname. apply list_elem_of_In. by apply in_map.
Qed.

Lemma run_metric_names vr hd w score w' :
  history_readable hd ->
  calculate_compliance_score vr hd w = Return (score, w') ->
  map name (metrics score) = odict_keys metric_definitions.
Proof.
  intros Hread Hrun.
  destruct (run_summary vr hd w Hread)
    as (pre & score0 & w0 & _ & Hrun0 & _ & _ & _ & _ & Hm & _).
  rewrite Hrun in Hrun0. injection Hrun0 as <- <-.
  apply (f_equal (map (fun core : string * HealthCategory * Q * Q * string =>
                         core.1.1.1.1))) in Hm.
  rewrite !map_map in Hm. exact Hm.
Qed.

(** C2 (as amended). The declining-trend test is the last branch of an
    [if]/[elif] chain, so it is reached only for a metric whose status is
    neither "critical" nor "poor".  A metric with status "critical" (or
    "poor") gets its status flag and no declining flag, whatever its
    trend; a metric with any other status and a declining trend gets the
    declining flag. *)
Theorem status_flag_preempts_declining_flag vr hd w :
  history_readable hd ->
  exists score w',
    calculate_compliance_score vr hd w = Return (score, w') /\
    forall metric,
      metric ∈ metrics score ->
      (status metric = "critical" ->
       RecCritical (name metric) (value metric) ∈ recommendations score /\
       RecDeclining (name metric) ∉ recommendations score) /\
      (status metric = "poor" ->
       RecBelowThreshold (name metric) (value metric) ∈ recommendations score /\
       RecDeclining (name metric) ∉ recommendations score) /\
      (status metric <> "critical" -> status metric <> "poor" ->
       trend metric = "declining" ->
       RecDeclining (name metric) ∈ recommendations score).
Proof.
  intros Hread.
  destruct (run_fields vr hd w Hread)
    as (pre & score & w' & _ & Hrun & _ & _ & _ & _ & Hrec & _).
  exists score, w'. split; [assumption|].
  pose proof (run_metric_names _ _ _ _ _ Hread Hrun) as Hnames.
  assert (Hnodup : NoDup (map name (metrics score))).
  { rewrite Hnames. unfold odict_keys, metric_definitions, _load_metric_definitions.
    cbn [map fst]. apply (bool_decide_unpack _). vm_compute. reflexivity. }
  intros metric Hin. apply list_elem_of_In in Hin. rewrite Hrec.
  destruct (status_flag_present score metric Hin) as [Hcrit Hpoor].
  assert (Hnone : status metric = "critical" \/ status metric = "poor" ->
                  RecDeclining (name metric) ∉ _generate_recommendations score).
  { intros Hst Hdecl. apply list_elem_of_In, declining_flag_origin in Hdecl.
    destruct Hdecl as (other & Hother & Hname & Hc & Hp & _).
    assert (other = metric) as -> by (by apply (same_name_same_metric _ Hnodup)).
    destruct Hst; contradiction. }
  split; [|split].
  - intros Hst. split; [apply list_elem_of_In; auto | auto].
  - intros Hst. split; [apply list_elem_of_In; auto | auto].
  - intros Hc Hp Hd. apply list_elem_of_In, declining_flag_origin.
    exists metric. auto.
Qed.

Lemma status_flag_preempts_declining_flag_witness :
  exists score w',
    calculate_compliance_score ∅ (Some structural_decline) epoch_world =
      Return (score, w') /\
    forall metric,
      metric ∈ metrics score ->
      status metric = "critical" ->
      RecCritical (name metric) (value metric) ∈ recommendations score /\
      RecDeclining (name metric) ∉ recommendations score.
Proof.
  destruct (status_flag_preempts_declining_flag ∅ (Some structural_decline)
              epoch_world) as (score & w' & Hrun & Hflags).
  - right. repeat constructor; eexists; reflexivity.
  - exists score, w'. split; [assumption|].
    intros metric Hin. apply (Hflags metric Hin).
Defined.

(** C2, the claim as stated fails: with empty raw metrics and a history
    in which the structural score falls from 0.5 to 0.1, the structural
    metric has status "critical" and trend "declining", and the
    recommendations hold its critical flag but no declining flag. *)
Lemma critical_and_declining_gets_one_flag :
  exists score w' metric,
    calculate_compliance_score ∅ (Some structural_decline) epoch_world =
      Return (score, w') /\
    metric ∈ metrics score /\
    name metric = "structural_health" /\
    status metric = "critical" /\
    trend metric = "declining" /\
    RecCritical (name metric) (value metric) ∈ recommendations score /\
    RecDeclining (name metric) ∉ recommendations score.
Proof.
  eexists _, _, _. split; [vm_compute; reflexivity|].
  split; [apply list_elem_of_here|].
  split; [reflexivity|]. split; [reflexivity|]. split; [reflexivity|].
  split; [apply list_elem_of_here|].
  rewrite list_elem_of_In. cbn. intros H.
  repeat (destruct H as [H|H]; [discriminate H|]). exact H.
Qed.

(** ** The history file *)

Lemma save_to_history_file score w :
  exists entry,
    snap_timestamp entry = Some (clock w (ticks w)) /\
    snap_overall_score entry = Some (overall_score score) /\
    snap_compliance_level entry = Some (compliance_level score) /\
    snap_health_grade entry = Some (health_grade score) /\
    snap_category_scores entry = Some (category_scores score) /\
    snap_trend_analysis entry = Some (trend_analysis score) /\
    history_file (_save_to_history score w) =
      Stored (last_n 100 (stored_entries (history_file w) ++ [entry])).
Proof.
  exists {| snap_timestamp := Some (clock w (ticks w));
            snap_overall_score := Some (overall_score score);
            snap_compliance_level := Some (compliance_level score);
            snap_health_grade := Some (health_grade score);
            snap_category_scores := Some (category_scores score);
            snap_trend_analysis := Some (trend_analysis score) |}.
  do 6 (split; [reflexivity|]).
  unfold _save_to_history, datetime_now. cbn [history_file].
  destruct (history_file w); reflexivity.
Qed.

Lemma last_n_app_below {A} (n : nat) (l : list A) (x : A) :
  (length l < n)%nat -> last_n n (l ++ [x]) = l ++ [x].
Proof.
  intros H. apply last_n_short. rewrite length_app. simpl. lia.
Qed.

Lemma last_n_app_full {A} (n : nat) (l : list A) (x : A) :
  (S n <= length l)%nat ->
  last_n (S n) (l ++ [x]) = drop (length l - n) l ++ [x].
Proof.
  intros H. unfold last_n. rewrite length_app. simpl length.
  replace (length l + 1 - S n)%nat with (length l - n)%nat by lia.
  apply drop_app_le. lia.
Qed.

(** C3 (as amended). A scoring run appends one snapshot to the stored
    history and then keeps only the last 100 entries.  While the file
    holds fewer than 100 snapshots every stored snapshot is kept, in
    place and unchanged; from 100 stored snapshots on, the oldest ones
    are dropped so that the newest 99 and the new one remain. *)
Theorem history_append_keeps_last_hundred vr hd w entries :
  history_readable hd ->
  history_file w = Stored entries ->
  exists score w' entry,
    calculate_compliance_score vr hd w = Return (score, w') /\
    snap_overall_score entry = Some (overall_score score) /\
    snap_compliance_level entry = Some (compliance_level score) /\
    snap_health_grade entry = Some (health_grade score) /\
    history_file w' = Stored (last_n 100 (entries ++ [entry])) /\
    ((length entries < 100)%nat -> history_file w' = Stored (entries ++ [entry])) /\
    ((100 <= length entries)%nat ->
     history_file w' = Stored (drop (length entries - 99) entries ++ [entry])).
Proof.
  intros Hread Hfile.
  destruct (calculate_compliance_score_returns vr hd w Hread)
    as (pre & adjusted & _ & _ & Hrun).
  destruct (save_to_history_file
              (set_recommendations (_generate_recommendations adjusted) adjusted)
              (advance 5 w))
    as (entry & _ & Ho & Hl & Hg & _ & _ & Hsave).
  change (history_file (advance 5 w)) with (history_file w) in Hsave.
  rewrite Hfile in Hsave. cbn [stored_entries] in Hsave.
  eexists _, _, entry. split; [exact Hrun|].
  do 3 (split; [assumption|]).
  split; [exact Hsave|]. rewrite Hsave. split; intros Hlen.
  - by rewrite last_n_app_below.
  - by rewrite last_n_app_full.
Qed.

Lemma history_append_keeps_last_hundred_witness :
  exists score w' entry,
    calculate_compliance_score ∅ None two_snapshots_world = Return (score, w') /\
    history_file w' = Stored [numbered_snapshot 0; numbered_snapshot 1; entry].
Proof.
  destruct (history_append_keeps_last_hundred ∅ None two_snapshots_world
              [numbered_snapshot 0; numbered_snapshot 1])
    as (score & w' & entry & Hrun & _ & _ & _ & _ & Hkeep & _).
  - left. simpl. lia.
  - reflexivity.
  - exists score, w', entry. split; [assumption|]. apply Hkeep. simpl. lia.
Defined.

(** C3, the claim as stated fails once the file holds 100 snapshots: the
    run keeps [history[-100:]], so the oldest stored snapshot is gone
    afterwards. *)
Lemma oldest_snapshot_dropped :
  exists score w' stored,
    history_file crowded_world = Stored hundred_snapshots /\
    numbered_snapshot 0 ∈ hundred_snapshots /\
    calculate_compliance_score ∅ None crowded_world = Return (score, w') /\
    history_file w' = Stored stored /\
    length stored = 100%nat /\
    numbered_snapshot 0 ∉ stored.
Proof.
  eexists _, _, _. split; [reflexivity|].
  split; [apply list_elem_of_here|].
  split; [vm_compute; reflexivity|].
  split; [reflexivity|].
  split; [reflexivity|].
  intros H. apply (list_elem_of_fmap_2 snap_timestamp) in H.
  revert H. apply (bool_decide_unpack _). vm_compute. exact I.
Qed.

(** * Further properties of the scorer *)

(** ** Classification bands *)

(** Decide every comparison the hypotheses settle, and split on the
    first one they leave open. *)
Ltac settle_comparisons :=
  repeat match goal with
  | |- context [Qgeb ?s ?t] =>
      first [ rewrite (proj2 (Qgeb_true s t)) by lra
            | rewrite (proj2 (Qgeb_false s t)) by lra ]
  end.

Ltac split_bands :=
  settle_comparisons;
  repeat (match goal with
          | |- context [Qgeb ?s ?t] =>
              let E := fresh "E" in
              destruct (Qgeb s t) eqn:E;
              [apply Qgeb_true in E | apply Qgeb_false in E]
          end; settle_comparisons).

(** X1. With thresholds in descending order a score is labelled by the
    highest threshold it reaches; it is "critical" exactly when it is
    below the "poor" threshold.  The "critical" threshold of a
    definition is never consulted. *)
Theorem status_bands score th :
  thresholds_descending th ->
  (_determine_status score th = "excellent" <-> th_excellent th <= score) /\
  (_determine_status score th = "good" <->
     th_good th <= score /\ score < th_excellent th) /\
  (_determine_status score th = "fair" <->
     th_fair th <= score /\ score < th_good th) /\
  (_determine_status score th = "poor" <->
     th_poor th <= score /\ score < th_fair th) /\
  (_determine_status score th = "critical" <-> score < th_poor th) /\
  (forall c,
     _determine_status score
       {| th_excellent := th_excellent th; th_good := th_good th;
          th_fair := th_fair th; th_poor := th_poor th; th_critical := c |} =
     _determine_status score th).
Proof.
  intros (Hpf & Hfg & Hge). unfold _determine_status. cbn [th_excellent th_good th_fair th_poor].
  split_bands; repeat split; intros; try discriminate; try reflexivity; try lra.
Qed.

Lemma status_bands_witness :
  _determine_status 0.4
    {| th_excellent := 0.95; th_good := 0.85; th_fair := 0.70;
       th_poor := 0.50; th_critical := 0.30 |} = "critical".
Proof.
  destruct (status_bands 0.4
              {| th_excellent := 0.95; th_good := 0.85; th_fair := 0.70;
                 th_poor := 0.50; th_critical := 0.30 |})
    as (_ & _ & _ & _ & Hcrit & _).
  - repeat split; vm_compute; discriminate.
  - apply Hcrit. vm_compute. reflexivity.
Defined.

Lemma status_rank_monotone th a b :
  thresholds_descending th -> a <= b ->
  (status_rank (_determine_status a th) <= status_rank (_determine_status b th))%nat.
Proof.
  intros (Hpf & Hfg & Hge) Hab. unfold _determine_status.
  split_bands; vm_compute; lia.
Qed.

(** X2. For each of the five configured categories the status label is
    monotone in the score: a higher score never gets a lower label. *)
Theorem configured_status_monotone key definition a b :
  odict_get key metric_definitions = Some definition ->
  a <= b ->
  (status_rank (_determine_status a (def_thresholds definition)) <=
   status_rank (_determine_status b (def_thresholds definition)))%nat.
Proof.
  intros Hget Hab. apply status_rank_monotone; [|assumption].
  revert Hget. unfold metric_definitions, _load_metric_definitions.
  cbn [odict_get].
  repeat (match goal with
          | |- context [String.eqb ?k key] =>
              destruct (String.eqb k key);
              [intros [= <-]; repeat split; vm_compute; discriminate|]
          end).
  discriminate.
Qed.

Lemma configured_status_monotone_witness :
  exists definition,
    odict_get "process_health" metric_definitions = Some definition /\
    (status_rank (_determine_status 0.2 (def_thresholds definition)) <=
     status_rank (_determine_status 0.6 (def_thresholds definition)))%nat.
Proof.
  eexists. split; [reflexivity|].
  apply (configured_status_monotone "process_health" _ 0.2 0.6).
  - reflexivity.
  - vm_compute. discriminate.
Defined.

(** X3. The letter grade refines the compliance level: on every score
    "exemplary" goes with A+ or A, "secure" with A-, B+ or B, "tested"
    with B-, C+ or C, "documented" with C-, D+ or D, and grade F with
    "structured" or "basic". *)
Theorem grade_refines_level (s : Q) :
  let level := _determine_compliance_level s in
  let grade := _calculate_health_grade s in
  (level = "exemplary" <-> grade = "A+" \/ grade = "A") /\
  (level = "secure" <-> grade = "A-" \/ grade = "B+" \/ grade = "B") /\
  (level = "tested" <-> grade = "B-" \/ grade = "C+" \/ grade = "C") /\
  (level = "documented" <-> grade = "C-" \/ grade = "D+" \/ grade = "D") /\
  (level = "structured" \/ level = "basic" <-> grade = "F").
Proof.
  unfold _determine_compliance_level, _calculate_health_grade.
  split_bands; cbv zeta; intuition (discriminate || reflexivity || auto).
Qed.

(** X4. Compliance level and letter grade are monotone in the overall
    score. *)
Theorem level_and_grade_monotone (a b : Q) :
  a <= b ->
  (level_rank (_determine_compliance_level a) <=
   level_rank (_determine_compliance_level b))%nat /\
  (grade_rank (_calculate_health_grade a) <=
   grade_rank (_calculate_health_grade b))%nat.
Proof.
  intros Hab. split.
  - unfold _determine_compliance_level. split_bands; vm_compute; lia.
  - unfold _calculate_health_grade. split_bands; vm_compute; lia.
Qed.

Lemma level_and_grade_monotone_witness :
  (level_rank (_determine_compliance_level 0.5) <=
   level_rank (_determine_compliance_level 0.8))%nat /\
  (grade_rank (_calculate_health_grade 0.5) <=
   grade_rank (_calculate_health_grade 0.8))%nat.
Proof.
  apply (level_and_grade_monotone 0.5 0.8). vm_compute. discriminate.
Defined.

(** ** The scoring run *)

(** X5. The overall score before trend adjustment is monotone in the five
    base metrics: raising any of them never lowers it. *)
Theorem overall_monotone_in_base_metrics vr1 vr2 w1 w2 :
  raw_metric vr1 "structural_health" <= raw_metric vr2 "structural_health" ->
  raw_metric vr1 "content_health" <= raw_metric vr2 "content_health" ->
  raw_metric vr1 "process_health" <= raw_metric vr2 "process_health" ->
  raw_metric vr1 "security_health" <= raw_metric vr2 "security_health" ->
  raw_metric vr1 "overall_health" <= raw_metric vr2 "overall_health" ->
  exists pre1 pre2,
    score_before_trends vr1 w1 = Return (pre1, advance 5 w1) /\
    score_before_trends vr2 w2 = Return (pre2, advance 5 w2) /\
    overall_score pre1 <= overall_score pre2.
Proof.
  intros Hs Hc Hp Hsec Hoh.
  destruct (score_before_trends_returns vr1 w1) as (pre1 & Hpre1 & _ & Ho1 & _).
  destruct (score_before_trends_returns vr2 w2) as (pre2 & Hpre2 & _ & Ho2 & _).
  exists pre1, pre2. split; [assumption|]. split; [assumption|].
  rewrite Ho1, Ho2, !py_sum_five.
  pose proof (evolution_of_mean vr1) as He1.
  pose proof (evolution_of_mean vr2) as He2.
  revert He1 He2. generalize (evolution_of vr1) (evolution_of vr2).
  intros e1 e2 He1 He2.
  unfold Qdiv in He1, He2. change (/ 5) with (1 # 5) in He1, He2.
  match type of He1 with _ == Qmin 1 ?x =>
    destruct (Q.min_spec 1 x) as [[? Hm1] | [? Hm1]]; rewrite Hm1 in He1 end;
  match type of He2 with _ == Qmin 1 ?x =>
    destruct (Q.min_spec 1 x) as [[? Hm2] | [? Hm2]]; rewrite Hm2 in He2 end;
  lra.
Qed.

Lemma overall_monotone_in_base_metrics_witness :
  exists pre1 pre2,
    score_before_trends half_scores epoch_world =
      Return (pre1, advance 5 epoch_world) /\
    score_before_trends scenario_A_full epoch_world =
      Return (pre2, advance 5 epoch_world) /\
    overall_score pre1 <= overall_score pre2.
Proof.
  apply (overall_monotone_in_base_metrics half_scores scenario_A_full
           epoch_world epoch_world); vm_compute; discriminate.
Defined.

Lemma configured_item_lookup (item : string * MetricDefinition) :
  item ∈ metric_definitions -> odict_get item.1 metric_definitions = Some item.2.
Proof.
  unfold metric_definitions, _load_metric_definitions. intros Hin.
  repeat (apply elem_of_cons in Hin as [-> | Hin]; [reflexivity|]).
  by apply elem_of_nil in Hin.
Qed.

Lemma configured_item_score vr (item : string * MetricDefinition) :
  item ∈ metric_definitions ->
  category_map (raw_metric vr "structural_health") (raw_metric vr "content_health")
    (raw_metric vr "process_health") (raw_metric vr "security_health")
    (evolution_of vr) !! item.1 =
  Some (_calculate_category_score item.1 (_extract_base_metrics vr) item.2).
Proof.
  unfold metric_definitions, _load_metric_definitions. intros Hin.
  destruct (lookup_category_map
              (raw_metric vr "structural_health") (raw_metric vr "content_health")
              (raw_metric vr "process_health") (raw_metric vr "security_health")
              (evolution_of vr)) as (Hs & Hc & Hp & Hsec & He).
  repeat (apply elem_of_cons in Hin as [-> | Hin];
          [cbn [fst snd];
           first [rewrite category_score_evolution; assumption
                 |rewrite category_score_base by (rewrite !elem_of_cons; tauto);
                  assumption]|]).
  by apply elem_of_nil in Hin.
Qed.

(** X6. A run returns one metric per configured category, in
    configuration order; each metric's value is the entry of
    [category_scores] under its name, its category and weight are the
    configured ones, and its status is the label of its value under the
    category's thresholds. *)
Theorem metrics_mirror_category_scores vr hd w :
  history_readable hd ->
  exists score w',
    calculate_compliance_score vr hd w = Return (score, w') /\
    map name (metrics score) =
      ["structural_health"; "content_health"; "process_health";
       "security_health"; "evolution_health"] /\
    forall metric,
      metric ∈ metrics score ->
      category_scores score !! name metric = Some (value metric) /\
      exists definition,
        odict_get (name metric) metric_definitions = Some definition /\
        category metric = def_category definition /\
        weight metric = def_weight definition /\
        status metric =
          _determine_status (value metric) (def_thresholds definition).
Proof.
  intros Hread.
  destruct (run_summary vr hd w Hread)
    as (pre & score & w' & _ & Hrun & Hmap & _ & _ & _ & Hm & _).
  exists score, w'. split; [assumption|].
  split; [exact (run_metric_names _ _ _ _ _ Hread Hrun)|].
  destruct (map_eq_elem_of _ _ _ _ Hm) as [Hfrom _].
  intros metric Hin. destruct (Hfrom metric Hin) as (item & Hitem & Hcore).
  unfold metric_core in Hcore. injection Hcore as Hn Hcat Hv Hw Hst.
  cbn [metric_at name category value weight status] in Hn, Hcat, Hv, Hw, Hst.
  rewrite Hmap, Hn, Hv. split; [by apply configured_item_score|].
  exists item.2. split; [by apply configured_item_lookup|].
  rewrite Hcat, Hw, Hst. auto.
Qed.

Lemma metrics_mirror_category_scores_witness :
  exists score w',
    calculate_compliance_score half_scores None epoch_world = Return (score, w') /\
    forall metric,
      metric ∈ metrics score ->
      category_scores score !! name metric = Some (value metric).
Proof.
  destruct (metrics_mirror_category_scores half_scores None epoch_world)
    as (score & w' & Hrun & _ & Hall).
  - left. simpl. lia.
  - exists score, w'. split; [assumption|].
    intros metric Hin. apply (Hall metric Hin).
Defined.

(** X7. On a score in [0,1] the trend adjustment moves the overall score
    in the direction of the trend and by at most two percent: an
    improving trend never lowers it, a declining trend never raises
    it. *)
Theorem adjustment_direction score :
  0 <= overall_score score <= 1 ->
  let s := overall_score score in
  let overall_trend := default "stable" (trend_analysis score !! "overall") in
  let s' := overall_score (_adjust_score_for_trends score) in
  (overall_trend = "improving" -> s <= s' /\ s' <= s * 1.02) /\
  (overall_trend = "declining" -> s * 0.98 <= s' /\ s' <= s) /\
  (overall_trend <> "improving" -> overall_trend <> "declining" -> s' = s).
Proof.
  intros Hs s overall_trend s'. subst s'. rewrite adjust_overall_score.
  fold overall_trend. fold s.
  split; [|split].
  - intros ->. cbn [String.eqb Ascii.eqb Bool.eqb].
    destruct (py_min_cases 1.0 (s * 1.02)) as [[? ->] | [? ->]]; subst s; lra.
  - intros ->. cbn [String.eqb Ascii.eqb Bool.eqb].
    destruct (py_max_cases 0.0 (s * 0.98)) as [[? ->] | [? ->]]; subst s; lra.
  - intros Hi Hd. apply String.eqb_neq in Hi, Hd. by rewrite Hi, Hd.
Qed.

Lemma adjustment_direction_witness :
  overall_score improving_half <=
  overall_score (_adjust_score_for_trends improving_half).
Proof.
  destruct (adjustment_direction improving_half) as (Hup & _).
  - split; vm_compute; discriminate.
  - apply Hup. reflexivity.
Defined.

(** ** Trend analysis *)

Lemma py_for_inserts {V} (P : V -> Prop)
    (body : gmap string V -> string -> Py (gmap string V)) (keys : list string) :
  (forall s x, exists v, P v /\ body s x = Return (<[ x := v ]> s)) ->
  forall s,
    map_Forall (fun _ v => P v) s ->
    exists s',
      py_for keys s body = Return s' /\
      dom s' = dom s ∪ list_to_set keys /\
      map_Forall (fun _ v => P v) s'.
Proof.
  intros Hbody. induction keys as [|key keys IH]; intros s Hs.
  - exists s. split; [reflexivity|]. split; [|assumption].
    cbn [list_to_set foldr]. by rewrite union_empty_r_L.
  - destruct (Hbody s key) as (v & Hv & Hstep). cbn [py_for]. rewrite Hstep.
    destruct (IH (<[ key := v ]> s)) as (s' & Hfor & Hdom & Hall).
    { by apply map_Forall_insert_2. }
    exists s'. split; [assumption|]. split; [|assumption].
    rewrite Hdom, dom_insert_L. cbn [list_to_set foldr].
    by rewrite (union_comm_L {[ key ]} (dom s)), union_assoc_L.
Qed.

Lemma analyze_trends_shape (historical_data : list Snapshot) score :
  (2 <= length historical_data)%nat ->
  history_readable (Some historical_data) ->
  exists trends,
    _analyze_trends historical_data score = Return trends /\
    dom trends = {[ "overall" ]} ∪ list_to_set (odict_keys metric_definitions) /\
    map_Forall (fun _ label => trend_label label) trends.
Proof.
  intros Hlen Hread. unfold _analyze_trends.
  assert (Hguard : (length historical_data <? 2)%nat = false)
    by (apply Nat.ltb_ge; lia).
  rewrite Hguard.
  destruct Hread as [Hshort | Hall]; [simpl in Hshort; lia|].
  change (default [] (Some historical_data)) with historical_data in Hall.
  destruct (mapM_getitem_returns _ Hall) as (qs & -> & Hqs).
  rewrite length_last_n in Hqs. cbn [mbind Py_bind].
  assert (Hge : (2 <=? length qs)%nat = true) by (apply Nat.leb_le; lia).
  rewrite Hge.
  destruct (index_last_returns qs) as [newest ->]; [lia|].
  destruct (index_first_returns qs) as [oldest ->]; [lia|].
  cbn [mbind Py_bind].
  match goal with
  | |- context [py_for ?l _ ?body] =>
      pose proof (py_for_inserts trend_label body l) as Hfor
  end.
  lapply Hfor; clear Hfor.
  2:{ intros trends category.
      rewrite length_map, length_last_n.
      assert (Hge3 : (2 <=? Nat.min 3 (length historical_data))%nat = true)
        by (apply Nat.leb_le; lia).
      rewrite Hge3.
      match goal with
      | |- context [index_last ?cs] =>
          destruct (index_last_returns cs) as [n1 ->];
          [rewrite length_map, length_last_n; lia|];
          destruct (index_first_returns cs) as [o1 ->];
          [rewrite length_map, length_last_n; lia|]
      end.
      cbn [mbind Py_bind]. unfold trend_label.
      destruct (Qgtb n1 o1); [eexists; split; [|reflexivity]; auto|].
      destruct (Qltb n1 o1); eexists; (split; [|reflexivity]); auto. }
  intros Hfor.
  assert (Hstart : forall label, trend_label label ->
            exists trends,
              py_for (odict_keys metric_definitions)
                (<[ "overall" := label ]> (∅ : gmap string string))
                (fun (trends : gmap string string) (category : string) =>
                   let category_scores :=
                     map (fun entry =>
                            default 0.5
                              (default ∅ (snap_category_scores entry) !! category))
                         (last_n 3 historical_data) in
                   if (2 <=? length category_scores)%nat then
                     newest ← index_last category_scores;
                     oldest ← index_first category_scores;
                     if Qgtb newest oldest
                     then mret (<[ category := "improving" ]> trends)
                     else if Qltb newest oldest
                     then mret (<[ category := "declining" ]> trends)
                     else mret (<[ category := "stable" ]> trends)
                   else mret trends) = Return trends /\
              dom trends =
                {[ "overall" ]} ∪ list_to_set (odict_keys metric_definitions) /\
              map_Forall (fun _ label => trend_label label) trends).
  { intros label Hlabel.
    destruct (Hfor (<[ "overall" := label ]> ∅)) as (trends & Hrun & Hdom & Hlabels).
    { apply map_Forall_insert_2; [assumption | apply map_Forall_empty]. }
    exists trends. split; [exact Hrun|]. split; [|assumption].
    by rewrite Hdom, dom_insert_L, dom_empty_L, union_empty_r_L. }
  unfold trend_label in Hstart.
  destruct (Qgtb newest (oldest * 1.05)); [apply Hstart; auto|].
  destruct (Qltb newest (oldest * 0.95)); apply Hstart; auto.
Qed.

(** X8. On a history of two or more entries whose indexed entries carry
    an overall score, trend analysis returns a dictionary with exactly
    six keys, "overall" and the five category names, each mapped to
    "improving", "declining" or "stable". *)
Theorem analyze_trends_keys_and_labels (historical_data : list Snapshot) score :
  (2 <= length historical_data)%nat ->
  history_readable (Some historical_data) ->
  exists trends,
    _analyze_trends historical_data score = Return trends /\
    dom trends =
      list_to_set ["overall"; "structural_health"; "content_health";
                   "process_health"; "security_health"; "evolution_health"] /\
    forall key label,
      trends !! key = Some label ->
      label = "improving" \/ label = "declining" \/ label = "stable".
Proof.
  intros Hlen Hread.
  destruct (analyze_trends_shape historical_data score Hlen Hread)
    as (trends & Hrun & Hdom & Hlabels).
  exists trends. split; [assumption|]. split.
  - rewrite Hdom. apply (bool_decide_unpack _). vm_compute. reflexivity.
  - intros key label Hkey. exact (Hlabels key label Hkey).
Qed.

Lemma analyze_trends_keys_and_labels_witness :
  exists trends,
    _analyze_trends declining_history improving_half = Return trends /\
    dom trends =
      list_to_set ["overall"; "structural_health"; "content_health";
                   "process_health"; "security_health"; "evolution_health"].
Proof.
  destruct (analyze_trends_keys_and_labels declining_history improving_half)
    as (trends & Hrun & Hdom & _).
  - simpl. lia.
  - right. repeat constructor; eexists; reflexivity.
  - exists trends. split; assumption.
Defined.

Lemma last_n_app_old {A} (n : nat) (old l : list A) :
  (n <= length l)%nat -> last_n n (old ++ l) = last_n n l.
Proof.
  intros H. unfold last_n. rewrite length_app.
  replace (length old + length l - n)%nat
    with (length old + (length l - n))%nat by lia.
  apply drop_app_add.
Qed.

(** X9. Trend analysis looks at a window only: the last five entries
    for the overall trend, the last three for the category trends.
    Entries older than the last five never change its result, and never
    make it raise. *)
Theorem analyze_trends_window (old recent : list Snapshot) score :
  (5 <= length recent)%nat ->
  _analyze_trends (old ++ recent) score = _analyze_trends recent score.
Proof.
  intros Hlen. unfold _analyze_trends.
  rewrite !last_n_app_old by lia. rewrite length_app.
  assert (H1 : (length old + length recent <? 2)%nat = false)
    by (apply Nat.ltb_ge; lia).
  assert (H2 : (length recent <? 2)%nat = false) by (apply Nat.ltb_ge; lia).
  by rewrite H1, H2.
Qed.

Lemma analyze_trends_window_witness :
  _analyze_trends ([keyless_snapshot] ++ map numbered_snapshot (seq 0 5))
                  improving_half =
  _analyze_trends (map numbered_snapshot (seq 0 5)) improving_half.
Proof.
  apply (analyze_trends_window [keyless_snapshot] (map numbered_snapshot (seq 0 5))).
  simpl. lia.
Defined.





(** ** Metric trends *)

Lemma pre_metrics_stable vr w pre w' :
  score_before_trends vr w = Return (pre, w') ->
  forall metric,
    metric ∈ metrics pre ->
    trend metric = "stable" /\ name metric ∈ odict_keys metric_definitions.
Proof.
  intros Hpre.
  destruct (score_before_trends_returns vr w)
    as (pre0 & Hpre0 & _ & _ & _ & _ & Hm & _).
  assert (pre0 = pre) as -> by congruence.
  intros metric Hin. rewrite Hm in Hin.
  apply elem_of_lookup_imap in Hin as (i & item & -> & Hitem).
  split; [reflexivity|]. cbn [metric_at name].
  unfold odict_keys. change (map fst metric_definitions) with (fst <$> metric_definitions).
  apply list_elem_of_fmap_2. by eapply list_elem_of_lookup_2.
Qed.

(** X11. After a run on a history of two or more entries every returned
    metric carries the trend recorded under its name in
    [trend_analysis]; on a shorter or absent history every metric keeps
    the trend "stable". *)
Theorem metric_trends_follow_analysis vr hd w :
  history_readable hd ->
  exists score w',
    calculate_compliance_score vr hd w = Return (score, w') /\
    ((2 <= length (default [] hd))%nat ->
     forall metric,
       metric ∈ metrics score ->
       trend_analysis score !! name metric = Some (trend metric)) /\
    ((length (default [] hd) < 2)%nat ->
     forall metric, metric ∈ metrics score -> trend metric = "stable").
Proof.
  intros Hread.
  destruct (run_fields vr hd w Hread)
    as (pre & score & w' & Hpre & Hrun & _ & _ & _ & _ & _ & Hoff & Hon).
  pose proof (pre_metrics_stable _ _ _ _ Hpre) as Hstable.
  exists score, w'. split; [assumption|]. split.
  - intros Hlen.
    destruct hd as [[|e1 [|e2 l]]|]; simpl in Hlen; try lia.
    destruct (Hon eq_refl) as (trends & Htr & Hta & _ & Hm).
    change (default [] (Some (e1 :: e2 :: l))) with (e1 :: e2 :: l) in Htr.
    destruct (analyze_trends_shape (e1 :: e2 :: l) pre) as (trends' & Htr' & Hdom & _);
      [simpl; lia | assumption |].
    assert (trends' = trends) as -> by congruence.
    intros metric Hin. rewrite Hm in Hin.
    change (map ?f (metrics pre)) with (f <$> metrics pre) in Hin.
    apply list_elem_of_fmap in Hin as (m0 & -> & Hin0).
    destruct (Hstable m0 Hin0) as [_ Hname].
    cbn [set_trend name trend]. rewrite Hta.
    assert (Hkey : name m0 ∈ dom trends).
    { rewrite Hdom. apply elem_of_union_r. by apply elem_of_list_to_set. }
    apply elem_of_dom in Hkey as [label Hlabel]. by rewrite Hlabel.
  - intros Hlen.
    destruct hd as [[|e1 [|e2 l]]|]; simpl in Hlen; try lia.
    + destruct (Hoff eq_refl) as (_ & _ & ->).
      intros metric Hin. by apply Hstable.
    + destruct (Hon eq_refl) as (trends & Htr & _ & _ & ->).
      assert (Hsingle : _analyze_trends [e1] pre = Return trends) by exact Htr.
      rewrite analyze_trends_single in Hsingle. apply Return_inj in Hsingle as <-.
      intros metric Hin.
      change (map ?f (metrics pre)) with (f <$> metrics pre) in Hin.
      apply list_elem_of_fmap in Hin as (m0 & -> & Hin0).
      destruct (Hstable m0 Hin0) as [_ Hname].
      cbn [set_trend trend]. rewrite lookup_singleton_ne; [reflexivity|].
      intros Heq. rewrite <- Heq in Hname. revert Hname.
      apply (bool_decide_unpack _). vm_compute. reflexivity.
    + destruct (Hoff eq_refl) as (_ & _ & ->).
      intros metric Hin. by apply Hstable.
Qed.

Lemma metric_trends_follow_analysis_witness :
  exists score w',
    calculate_compliance_score ∅ (Some structural_decline) epoch_world =
      Return (score, w') /\
    forall metric,
      metric ∈ metrics score ->
      trend_analysis score !! name metric = Some (trend metric).
Proof.
  destruct (metric_trends_follow_analysis ∅ (Some structural_decline) epoch_world)
    as (score & w' & Hrun & Hlong & _).
  - right. repeat constructor; eexists; reflexivity.
  - exists score, w'. split; [assumption|]. apply Hlong. simpl. lia.
Defined.

(** ** Advisories that do not belong to a metric *)

Lemma metric_flags_not_global (ms : list HealthMetric) r :
  In r (flat_map metric_flags ms) -> ~ In r global_flags.
Proof.
  rewrite in_flat_map. intros (metric & _ & Hflag) Hglobal.
  unfold metric_flags in Hflag. unfold global_flags in Hglobal.
  destruct (String.eqb (status metric) "critical");
    [|destruct (String.eqb (status metric) "poor");
      [|destruct (String.eqb (trend metric) "declining")]];
    cbn [In] in Hflag, Hglobal;
    first [destruct Hflag as [<-|[]] | destruct Hflag];
    destruct Hglobal as [[=]|[[=]|[[=]|[[=]|[]]]]].
Qed.

Lemma global_flags_iff score :
  (In RecRunRemediation (_generate_recommendations score) <->
     overall_score score < 0.5) /\
  (In RecReviewBestPractices (_generate_recommendations score) <->
     overall_score score < 0.5) /\
  (In RecComprehensiveReview (_generate_recommendations score) <->
     health_grade score = "D" \/ health_grade score = "F") /\
  (In RecShareAsExample (_generate_recommendations score) <->
     0.85 < overall_score score).
Proof.
  unfold _generate_recommendations. rewrite metric_loop_flags. cbn [app].
  pose proof (metric_flags_not_global (metrics score)) as Hnot.
  assert (Hgrade : existsb (String.eqb (health_grade score)) ["D"; "F"] = true <->
                   health_grade score = "D" \/ health_grade score = "F").
  { cbn [existsb]. rewrite !orb_true_iff, !String.eqb_eq. intuition discriminate. }
  destruct (Qltb (overall_score score) 0.5) eqn:Elow;
    [apply Qltb_true in Elow | apply Qltb_false in Elow];
  (destruct (existsb (String.eqb (health_grade score)) ["D"; "F"]);
    [assert (health_grade score = "D" \/ health_grade score = "F")
       by (by apply Hgrade)
    |assert (~ (health_grade score = "D" \/ health_grade score = "F"))
       by (intros HP; apply Hgrade in HP; discriminate HP)]; clear Hgrade);
  (destruct (Qgtb (overall_score score) 0.85) eqn:Ehigh;
    [apply Qgtb_true in Ehigh | apply Qgtb_false in Ehigh]);
  rewrite ?in_app_iff; cbn [In];
  repeat split; intros;
  repeat match goal with
         | H : _ \/ _ |- _ => destruct H
         | H : In ?r (flat_map metric_flags _) |- _ =>
             exfalso; apply (Hnot r H); unfold global_flags; cbn [In]; tauto
         | H : False |- _ => destruct H
         | H : _ = _ :> Recommendation |- _ => discriminate H
         end;
  try lra; try tauto.
Qed.

Lemma grade_D_or_F (s : Q) :
  _calculate_health_grade s = "D" \/ _calculate_health_grade s = "F" <-> s < 0.5.
Proof.
  unfold _calculate_health_grade.
  split_bands; split; intros; try lra; try (intuition discriminate); auto.
Qed.

(** X12. In every run the remediation advisories are issued exactly when
    the returned overall score is below 0.5, the share-as-example
    advisory exactly when it is above 0.85, and never both; when no
    history is supplied the comprehensive-review advisory is issued
    exactly together with the remediation advisories. *)
Theorem global_advisories vr hd w :
  history_readable hd ->
  exists score w',
    calculate_compliance_score vr hd w = Return (score, w') /\
    (RecRunRemediation ∈ recommendations score <-> overall_score score < 0.5) /\
    (RecReviewBestPractices ∈ recommendations score <->
       overall_score score < 0.5) /\
    (RecShareAsExample ∈ recommendations score <-> 0.85 < overall_score score) /\
    ~ (RecShareAsExample ∈ recommendations score /\
       RecRunRemediation ∈ recommendations score) /\
    (truthy hd = false ->
     (RecComprehensiveReview ∈ recommendations score <->
      RecRunRemediation ∈ recommendations score)).
Proof.
  intros Hread.
  destruct (run_fields vr hd w Hread)
    as (pre & score & w' & _ & Hrun & _ & _ & _ & _ & Hrec & _).
  destruct (run_summary vr hd w Hread)
    as (pre' & score' & w'' & _ & Hrun' & _ & _ & _ & Hg & _ & Hoff & _).
  rewrite Hrun in Hrun'. apply Return_inj in Hrun'.
  assert (score' = score) as -> by congruence. clear Hrun'.
  exists score, w'. split; [assumption|].
  destruct (global_flags_iff score) as (Hrem & Hbest & Hrev & Hshare).
  rewrite !list_elem_of_In, Hrec.
  split; [assumption|]. split; [assumption|]. split; [assumption|].
  split; [rewrite Hrem, Hshare; lra|].
  intros Hnone. destruct (Hoff Hnone) as [Ho _].
  rewrite Hrev, Hrem, Hg, Ho. apply grade_D_or_F.
Qed.

Lemma global_advisories_witness :
  exists score w',
    calculate_compliance_score ∅ None epoch_world = Return (score, w') /\
    (RecComprehensiveReview ∈ recommendations score <->
     RecRunRemediation ∈ recommendations score).
Proof.
  destruct (global_advisories ∅ None epoch_world)
    as (score & w' & Hrun & _ & _ & _ & _ & Hboth).
  - left. simpl. lia.
  - exists score, w'. split; [assumption|]. apply Hboth. reflexivity.
Defined.

Lemma length_metric_flags (ms : list HealthMetric) :
  (length (flat_map metric_flags ms) <= length ms)%nat.
Proof.
  induction ms as [|metric ms IH]; [reflexivity|].
  cbn [flat_map]. rewrite length_app. unfold metric_flags at 1.
  destruct (String.eqb (status metric) "critical");
    [|destruct (String.eqb (status metric) "poor");
      [|destruct (String.eqb (trend metric) "declining")]];
    simpl; lia.
Qed.

(** X13. A run issues at most eight advisories: at most one for each of
    the five metrics and at most three that concern the repository as a
    whole. *)
Theorem at_most_eight_recommendations vr hd w :
  history_readable hd ->
  exists score w',
    calculate_compliance_score vr hd w = Return (score, w') /\
    (length (recommendations score) <= 8)%nat.
Proof.
  intros Hread.
  destruct (run_fields vr hd w Hread)
    as (pre & score & w' & _ & Hrun & _ & _ & _ & _ & Hrec & _).
  exists score, w'. split; [assumption|].
  pose proof (run_metric_names _ _ _ _ _ Hread Hrun) as Hnames.
  apply (f_equal length) in Hnames. rewrite length_map in Hnames.
  change (length (odict_keys metric_definitions)) with 5%nat in Hnames.
  rewrite Hrec. unfold _generate_recommendations. rewrite metric_loop_flags.
  cbn [app]. pose proof (length_metric_flags (metrics score)) as Hflags.
  destruct (Qltb (overall_score score) 0.5) eqn:Elow;
    [apply Qltb_true in Elow | apply Qltb_false in Elow];
  destruct (existsb (String.eqb (health_grade score)) ["D"; "F"]);
  (destruct (Qgtb (overall_score score) 0.85) eqn:Ehigh;
    [apply Qgtb_true in Ehigh | apply Qgtb_false in Ehigh]);
  try lra; rewrite ?length_app; simpl; lia.
Qed.

Lemma at_most_eight_recommendations_witness :
  exists score w',
    calculate_compliance_score ∅ (Some structural_decline) epoch_world =
      Return (score, w') /\
    (length (recommendations score) <= 8)%nat.
Proof.
  apply (at_most_eight_recommendations ∅ (Some structural_decline) epoch_world).
  right. repeat constructor; eexists; reflexivity.
Defined.

(** ** The history file after a run *)

Lemma save_to_history_snapshot score w :
  history_file (_save_to_history score w) =
  Stored (last_n 100 (stored_entries (history_file w)
                      ++ [snapshot_of (clock w (ticks w)) score])).
Proof.
  unfold _save_to_history, datetime_now. cbn [history_file].
  destruct (history_file w); reflexivity.
Qed.

Lemma run_history_file vr hd w :
  history_readable hd ->
  exists score w',
    calculate_compliance_score vr hd w = Return (score, w') /\
    history_file w' =
      Stored (last_n 100 (stored_entries (history_file w)
                          ++ [snapshot_of (clock w (5 + ticks w)%nat) score])).
Proof.
  intros Hread.
  destruct (calculate_compliance_score_returns vr hd w Hread)
    as (pre & adjusted & _ & _ & Hrun).
  eexists _, _. split; [exact Hrun|].
  rewrite save_to_history_snapshot. reflexivity.
Qed.

Lemma last_n_snoc {A} (n : nat) (l : list A) (x : A) :
  (1 <= n)%nat -> exists kept, last_n n (l ++ [x]) = kept ++ [x] /\
                               length kept = Nat.min (n - 1) (length l) /\
                               kept = last_n (n - 1) l.
Proof.
  intros Hn. exists (last_n (n - 1) l). split; [|split; [apply length_last_n | reflexivity]].
  unfold last_n. rewrite length_app. simpl length.
  replace (length l + 1 - n)%nat with (length l - (n - 1))%nat by lia.
  apply drop_app_le. lia.
Qed.

(** X14. After a run the history file holds a list whose last entry is
    the snapshot of the returned score, stamped with the sixth clock
    reading of the run; before it stand the newest 99 of the entries
    stored before, so the file holds [min(n + 1, 100)] entries. *)
Theorem history_file_after_run vr hd w :
  history_readable hd ->
  exists score w' kept,
    calculate_compliance_score vr hd w = Return (score, w') /\
    history_file w' =
      Stored (kept ++ [snapshot_of (clock w (5 + ticks w)%nat) score]) /\
    kept = last_n 99 (stored_entries (history_file w)) /\
    length (kept ++ [snapshot_of (clock w (5 + ticks w)%nat) score]) =
      Nat.min (S (length (stored_entries (history_file w)))) 100.
Proof.
  intros Hread.
  destruct (run_history_file vr hd w Hread) as (score & w' & Hrun & Hfile).
  destruct (last_n_snoc 100 (stored_entries (history_file w))
              (snapshot_of (clock w (5 + ticks w)%nat) score))
    as (kept & Hkept & Hlen & Hlast); [lia|].
  exists score, w', kept. split; [assumption|].
  split; [by rewrite Hfile, Hkept|]. split; [assumption|].
  rewrite length_app, Hlen. cbn [length]. lia.
Qed.

Lemma history_file_after_run_witness :
  exists score w' kept,
    calculate_compliance_score ∅ None crowded_world = Return (score, w') /\
    history_file w' = Stored (kept ++ [snapshot_of 1000 score]) /\
    length (kept ++ [snapshot_of 1000 score]) = 100%nat.
Proof.
  destruct (history_file_after_run ∅ None crowded_world)
    as (score & w' & kept & Hrun & Hfile & _ & Hlen).
  - left. simpl. lia.
  - exists score, w', kept. split; [assumption|]. split; assumption.
Defined.

(** X15. The history file can be fed back: if every stored entry carries
    an overall score, so does every entry after a run, and a further run
    that takes the stored list as its historical data returns. *)
Theorem history_file_feeds_back vr hd w vr' :
  history_readable hd ->
  scored_entries (stored_entries (history_file w)) ->
  exists score w' stored,
    calculate_compliance_score vr hd w = Return (score, w') /\
    history_file w' = Stored stored /\
    scored_entries stored /\
    exists score' w'',
      calculate_compliance_score vr' (Some stored) w' = Return (score', w'').
Proof.
  intros Hread Hscored.
  destruct (run_history_file vr hd w Hread) as (score & w' & Hrun & Hfile).
  eexists score, w', _. split; [assumption|]. split; [exact Hfile|].
  assert (Hall : scored_entries
            (last_n 100 (stored_entries (history_file w)
                         ++ [snapshot_of (clock w (5 + ticks w)%nat) score]))).
  { unfold scored_entries, last_n. apply Forall_drop, Forall_app. split; [assumption|].
    constructor; [by eexists | constructor]. }
  split; [assumption|].
  match goal with
  | |- context [calculate_compliance_score vr' ?h w'] =>
      destruct (calculate_compliance_score_returns vr' h w') as (? & ? & _ & _ & Hnext)
  end.
  { right. unfold scored_entries in Hall. unfold last_n at 1. by apply Forall_drop. }
  eauto.
Qed.

Lemma history_file_feeds_back_witness :
  exists score w' stored,
    calculate_compliance_score ∅ None two_snapshots_world = Return (score, w') /\
    history_file w' = Stored stored /\
    exists score' w'',
      calculate_compliance_score half_scores (Some stored) w' = Return (score', w'').
Proof.
  destruct (history_file_feeds_back ∅ None two_snapshots_world half_scores)
    as (score & w' & stored & Hrun & Hfile & _ & Hnext).
  - left. simpl. lia.
  - repeat constructor; eexists; reflexivity.
  - exists score, w', stored. split; [assumption|]. split; assumption.
Defined.



(** ** Scoring algorithms *)

Lemma py_sum_acc (l : list Q) : forall a, fold_left Qplus l a == a + py_sum l.
Proof.
  unfold py_sum. induction l as [|x l IH]; intros a; cbn [fold_left]; [lra|].
  rewrite (IH (a + x)), (IH (0 + x)). lra.
Qed.

Lemma py_sum_cons (x : Q) (l : list Q) : py_sum (x :: l) == x + py_sum l.
Proof. unfold py_sum at 1. cbn [fold_left]. rewrite py_sum_acc. lra. Qed.

Lemma py_sum_app (l1 l2 : list Q) : py_sum (l1 ++ l2) == py_sum l1 + py_sum l2.
Proof.
  induction l1 as [|x l1 IH]; cbn [app].
  - unfold py_sum at 2. cbn [fold_left]. lra.
  - rewrite !py_sum_cons, IH. lra.
Qed.

Lemma py_sum_rev (l : list Q) : py_sum (rev l) == py_sum l.
Proof.
  induction l as [|x l IH]; [reflexivity|].
  cbn [rev]. rewrite py_sum_app, !py_sum_cons, IH.
  unfold py_sum at 2. cbn [fold_left]. lra.
Qed.

Lemma py_sum_nonneg (l : list Q) :
  Forall (fun w => 0 <= w) l -> 0 <= py_sum l.
Proof.
  induction 1 as [|w l Hw _ IH]; [unfold py_sum; cbn; lra|].
  rewrite py_sum_cons. lra.
Qed.

Lemma py_sum_pos (l : list Q) :
  l <> [] -> Forall (fun w => 0 < w) l -> 0 < py_sum l.
Proof.
  intros Hne Hall. destruct Hall as [|w l Hw Hall]; [congruence|].
  rewrite py_sum_cons.
  assert (0 <= py_sum l); [|lra].
  apply py_sum_nonneg. eapply Forall_impl; [exact Hall|]. cbn. intros; lra.
Qed.

(** A sum of scores times non-negative weights lies between the bounds of
    the scores times the sum of the weights. *)
Lemma zip_sum_bounds (lo hi : Q) (scores : list Q) :
  forall weights : list Q,
    length scores = length weights ->
    Forall (fun s => lo <= s <= hi) scores ->
    Forall (fun w => 0 <= w) weights ->
    lo * py_sum weights <=
      py_sum (map (fun '(s, w) => s * w) (zip scores weights)) /\
    py_sum (map (fun '(s, w) => s * w) (zip scores weights)) <=
      hi * py_sum weights.
Proof.
  induction scores as [|s scores IH]; intros [|w weights] Hlen Hs Hw;
    try discriminate Hlen.
  - unfold py_sum. cbn. lra.
  - apply Forall_cons in Hs as [Hs Hss]. apply Forall_cons in Hw as [Hw Hws].
    cbn [zip zip_with map]. rewrite !py_sum_cons.
    destruct (IH weights) as [Hlo Hhi]; [by injection Hlen | assumption | assumption |].
    assert (lo * w <= s * w) by (apply Qmult_le_compat_r; lra).
    assert (s * w <= hi * w) by (apply Qmult_le_compat_r; lra).
    split; lra.
Qed.

Lemma weighted_average_unguarded (scores weights : list Q) :
  scores <> [] -> length scores = length weights ->
  _weighted_average_score scores weights =
  py_truediv (py_sum (map (fun '(s, w) => s * w) (zip scores weights)))
             (py_sum weights).
Proof.
  intros Hne Hlen. unfold _weighted_average_score.
  rewrite (bool_decide_eq_false_2 _ Hne).
  assert (Hw : weights <> []).
  { intros ->. destruct scores; [congruence | discriminate Hlen]. }
  rewrite (bool_decide_eq_false_2 _ Hw), Hlen, Nat.eqb_refl. reflexivity.
Qed.



(** X18. With positive weights the weighted average of scores that all
    lie in an interval lies in that interval (never raises, never leaves
    the range of its inputs). *)
Theorem weighted_average_bounds (lo hi : Q) (scores weights : list Q) :
  scores <> [] ->
  length scores = length weights ->
  Forall (fun s => lo <= s <= hi) scores ->
  Forall (fun w => 0 < w) weights ->
  exists q,
    _weighted_average_score scores weights = Value q /\ lo <= q <= hi.
Proof.
  intros Hne Hlen Hs Hw. rewrite (weighted_average_unguarded _ _ Hne Hlen).
  assert (Hwne : weights <> []).
  { intros ->. destruct scores; [congruence | discriminate Hlen]. }
  pose proof (py_sum_pos weights Hwne Hw) as Hpos.
  destruct (zip_sum_bounds lo hi scores weights Hlen Hs) as [Hlo Hhi].
  { eapply Forall_impl; [exact Hw|]. cbn. intros; lra. }
  unfold py_truediv. destruct (Qeq_bool (py_sum weights) 0) eqn:E.
  { apply Qeq_bool_iff in E. lra. }
  eexists. split; [reflexivity|]. split.
  - by apply Qle_shift_div_l.
  - by apply Qle_shift_div_r.
Qed.

Lemma weighted_average_bounds_witness :
  exists q,
    _weighted_average_score [0.5; 0.7] [0.25; 0.75] = Value q /\ 0.5 <= q <= 0.7.
Proof.
  apply (weighted_average_bounds 0.5 0.7 [0.5; 0.7] [0.25; 0.75]).
  - discriminate.
  - reflexivity.
  - repeat constructor; vm_compute; discriminate.
  - repeat constructor.
Defined.

(** *** Exponential decay *)

Lemma decay_fold (d : Q) (items : list (nat * Q)) :
  forall ws wt,
    let r :=
      fold_left
        (fun (acc : Q * Q) (item : nat * Q) =>
           let '(weighted_sum, weight_sum) := acc in
           let '(i, score) := item in
           let weight := d ^ Z.of_nat i in
           (weighted_sum + score * weight, weight_sum + weight))
        items (ws, wt) in
    r.1 == ws + py_sum (map (fun '(s, w) => s * w)
                            (zip (map snd items)
                                 (map (fun item => d ^ Z.of_nat item.1) items))) /\
    r.2 == wt + py_sum (map (fun item => d ^ Z.of_nat item.1) items).
Proof.
  induction items as [|[i s] items IH]; intros ws wt r; subst r.
  - cbn. unfold py_sum. cbn. split; lra.
  - cbn [fold_left map zip zip_with fst snd].
    destruct (IH (ws + s * d ^ Z.of_nat i) (wt + d ^ Z.of_nat i)) as [H1 H2].
    cbv zeta in H1, H2. rewrite H1, H2, !py_sum_cons. split; lra.
Qed.

Lemma decay_weights_nonneg (d : Q) (items : list (nat * Q)) :
  0 <= d -> Forall (fun w => 0 <= w) (map (fun item => d ^ Z.of_nat item.1) items).
Proof.
  intros Hd. induction items as [|item items IH]; constructor; [|assumption].
  by apply Qpower_0_le.
Qed.

Lemma enumerate_cons {A} (x : A) (l : list A) :
  enumerate (x :: l) = (0%nat, x) :: imap (fun i y => (S i, y)) l.
Proof. reflexivity. Qed.

Lemma snd_imap_pair {A} (l : list A) :
  forall f : nat -> nat, map snd (imap (fun i y => (f i, y)) l) = l.
Proof.
  induction l as [|x l IH]; intros f; [reflexivity|].
  cbn [imap map snd]. f_equal. apply (IH (f ∘ S)).
Qed.

Lemma length_imap_pair {A} (l : list A) (f : nat -> nat) :
  length (imap (fun i y => (f i, y)) l) = length l.
Proof. apply length_imap. Qed.

(** The decay score as a quotient of two sums, for a non-empty list whose
    reversal is [newest :: older]. *)
Lemma decay_score_quotient (d newest : Q) (older scores : list Q) :
  rev scores = newest :: older ->
  0 <= d ->
  let items := imap (fun i y => (S i, y)) older in
  let weights := map (fun item : nat * Q => d ^ Z.of_nat item.1) items in
  _exponential_decay_score scores d ==
  (newest + py_sum (map (fun '(s, w) => s * w) (zip older weights))) /
  (1 + py_sum weights) /\
  0 <= py_sum weights.
Proof.
  intros Hrev Hd items weights.
  assert (Hw : 0 <= py_sum weights).
  { apply py_sum_nonneg. by apply decay_weights_nonneg. }
  split; [|assumption].
  unfold _exponential_decay_score.
  assert (Hne : scores <> []) by (intros ->; discriminate Hrev).
  rewrite (bool_decide_eq_false_2 _ Hne), Hrev, enumerate_cons.
  fold items. cbn [fold_left].
  match goal with
  | |- context [fold_left ?f items (?ws, ?wt)] =>
      destruct (decay_fold d items ws wt) as [H1 H2];
      destruct (fold_left f items (ws, wt)) as [weighted_sum weight_sum]
  end.
  cbn [fst snd] in H1, H2. fold weights in H1, H2.
  unfold items in H1 at 1. rewrite snd_imap_pair in H1.
  change (d ^ Z.of_nat 0) with 1 in H1, H2.
  assert (Hpos : Qgtb weight_sum 0 = true) by (apply Qgtb_true; lra).
  rewrite Hpos, H1, H2.
  apply Qeq_alt. rewrite <- Qeq_alt. field. lra.
Qed.



Lemma zero_weights_sum (older : list Q) :
  forall f : nat -> nat,
    (forall i, f i <> 0%nat) ->
    let weights :=
      map (fun item : nat * Q => 0 ^ Z.of_nat item.1)
          (imap (fun i y => (f i, y)) older) in
    py_sum weights == 0 /\
    py_sum (map (fun '(s, w) => s * w) (zip older weights)) == 0.
Proof.
  induction older as [|x older IH]; intros f Hf weights; subst weights.
  - unfold py_sum. cbn. split; reflexivity.
  - cbn [imap map zip zip_with fst]. rewrite !py_sum_cons.
    destruct (IH (f ∘ S)) as [H1 H2]; [intros i; apply Hf|].
    cbv zeta in H1, H2. unfold compose in H1, H2. unfold compose.
    rewrite H1, H2, Qpower_0 by (specialize (Hf 0%nat); lia). split; lra.
Qed.

Lemma unit_weights_sum (older : list Q) :
  forall f : nat -> nat,
    let weights :=
      map (fun item : nat * Q => 1 ^ Z.of_nat item.1)
          (imap (fun i y => (f i, y)) older) in
    py_sum weights == inject_Z (Z.of_nat (length older)) /\
    py_sum (map (fun '(s, w) => s * w) (zip older weights)) == py_sum older.
Proof.
  induction older as [|x older IH]; intros f weights; subst weights.
  - unfold py_sum. cbn. split; reflexivity.
  - cbn [imap map zip zip_with fst length]. rewrite !py_sum_cons.
    destruct (IH (f ∘ S)) as [H1 H2].
    cbv zeta in H1, H2. unfold compose in H1, H2. unfold compose.
    rewrite H1, H2, Qpower_1, Nat2Z.inj_succ, <- Z.add_1_r, inject_Z_plus.
    change (inject_Z 1) with 1. split; lra.
Qed.

(** X20. The two ends of the decay factor: with factor 0 the decay score
    is the newest score (the last of the list), with factor 1 it is the
    plain mean of the scores. *)
Theorem exponential_decay_extremes (scores : list Q) (newest : Q) :
  last scores = Some newest ->
  _exponential_decay_score scores 0 == newest /\
  _exponential_decay_score scores 1 ==
    py_sum scores / inject_Z (Z.of_nat (length scores)).
Proof.
  intros Hlast.
  destruct (rev scores) as [|x older] eqn:Hrev.
  { apply (f_equal (@rev Q)) in Hrev. rewrite rev_involutive in Hrev.
    subst scores. discriminate Hlast. }
  assert (Hscores : scores = rev older ++ [x]).
  { apply (f_equal (@rev Q)) in Hrev. by rewrite rev_involutive in Hrev. }
  assert (x = newest) as ->.
  { rewrite Hscores, last_snoc in Hlast. by injection Hlast. }
  split.
  - destruct (decay_score_quotient 0 newest older scores Hrev) as [Hq _]; [lra|].
    cbv zeta in Hq. rewrite Hq.
    destruct (zero_weights_sum older S) as [H1 H2]; [lia|].
    cbv zeta in H1, H2. rewrite H1, H2. field.
  - destruct (decay_score_quotient 1 newest older scores Hrev) as [Hq _]; [lra|].
    cbv zeta in Hq. rewrite Hq.
    destruct (unit_weights_sum older S) as [H1 H2].
    cbv zeta in H1, H2. rewrite H1, H2.
    assert (Hsum : py_sum scores == newest + py_sum older).
    { rewrite <- (py_sum_rev scores), Hrev, py_sum_cons. reflexivity. }
    assert (Hlen : length scores = S (length older)).
    { rewrite <- (length_rev scores), Hrev. reflexivity. }
    rewrite Hsum, Hlen, Nat2Z.inj_succ, <- Z.add_1_r, inject_Z_plus.
    apply Qeq_alt. rewrite <- Qeq_alt. field.
    assert (0 <= inject_Z (Z.of_nat (length older))).
    { change 0 with (inject_Z 0). rewrite <- Zle_Qle. lia. }
    change (inject_Z 1) with 1. lra.
Qed.

Lemma exponential_decay_extremes_witness :
  _exponential_decay_score [0.2; 0.4; 0.9] 0 == 0.9.
Proof.
  apply (exponential_decay_extremes [0.2; 0.4; 0.9] 0.9). reflexivity.
Defined.

(** *** Trend-adjusted score *)

(** X21. The trend-adjusted score never raises.  An empty list gives
    0.0 and a single score gives that score.  From two scores on, with
    a positive trend weight, the result lies strictly above the newest
    score when the series rose from its first to its last entry,
    strictly below when it fell, and equals it when the two ends agree;
    it is not clamped to [0,1]. *)
Theorem trend_adjusted_direction (scores : list Q) (trend_weight : Q) :
  0 < trend_weight ->
  match scores with
  | [] => _trend_adjusted_score scores trend_weight = Return 0.0
  | [only] => _trend_adjusted_score scores trend_weight = Return only
  | oldest :: _ :: _ =>
      exists newest r,
        last scores = Some newest /\
        _trend_adjusted_score scores trend_weight = Return r /\
        (oldest < newest -> newest < r) /\
        (newest < oldest -> r < newest) /\
        (oldest == newest -> r == newest)
  end.
Proof.
  intros Htw. destruct scores as [|oldest [|second rest]]; [reflexivity..|].
  destruct (last (oldest :: second :: rest)) as [newest|] eqn:Hlast.
  2:{ apply last_None in Hlast. discriminate Hlast. }
  exists newest. eexists. split; [reflexivity|].
  unfold _trend_adjusted_score, index_last, index_first.
  rewrite Hlast. split; [reflexivity|].
  set (n := inject_Z (Z.of_nat (length (oldest :: second :: rest)))).
  assert (Hn : 0 < n).
  { unfold n. change 0 with (inject_Z 0). rewrite <- Zlt_Qlt. simpl length. lia. }
  assert (Hinv : 0 < / n) by (by apply Qinv_lt_0_compat).
  assert (Hk : 0 < / n * trend_weight) by (by apply Qmult_lt_0_compat).
  unfold Qdiv. set (k := / n * trend_weight) in *.
  assert (Heq : newest + (newest - oldest) * / n * trend_weight ==
                newest + (newest - oldest) * k) by (unfold k; ring).
  rewrite Heq. clear Heq.
  split; [|split]; intros H.
  - assert (0 < (newest - oldest) * k) by (apply Qmult_lt_0_compat; lra). lra.
  - assert (0 < (oldest - newest) * k) by (apply Qmult_lt_0_compat; lra). lra.
  - rewrite H. ring.
Qed.

Lemma trend_adjusted_direction_witness :
  exists r, _trend_adjusted_score [0.5; 1.0] 0.1 = Return r /\ 1.0 < r.
Proof.
  destruct (trend_adjusted_direction [0.5; 1.0] 0.1)
    as (newest & r & Hlast & Hrun & Hup & _).
  - reflexivity.
  - exists r. split; [assumption|]. injection Hlast as <-. apply Hup. reflexivity.
Defined.

(** *** Penalties *)

Lemma violation_penalty_range (violation : string) :
  0.02 <= violation_penalty violation <= 0.1.
Proof.
  unfold violation_penalty.
  destruct (_ || _); [split; vm_compute; discriminate|].
  destruct (_ || _); split; vm_compute; discriminate.
Qed.

Lemma penalty_fold_range (violations : list string) :
  forall penalty,
    let total :=
      fold_left (fun penalty violation => penalty + violation_penalty violation)
                violations penalty in
    penalty + 0.02 * inject_Z (Z.of_nat (length violations)) <= total /\
    total <= penalty + 0.1 * inject_Z (Z.of_nat (length violations)).
Proof.
  induction violations as [|violation violations IH]; intros penalty total;
    subst total.
  - cbn [fold_left length]. change (inject_Z (Z.of_nat 0)) with 0. split; lra.
  - cbn [fold_left length].
    destruct (IH (penalty + violation_penalty violation)) as [Hlo Hhi].
    cbv zeta in Hlo, Hhi.
    pose proof (violation_penalty_range violation) as [Hv1 Hv2].
    rewrite Nat2Z.inj_succ, <- Z.add_1_r, inject_Z_plus.
    change (inject_Z 1) with 1. split; lra.
Qed.

Lemma penalty_loop (violations : list string) :
  forall penalty,
    fold_left
      (fun penalty violation =>
         if contains "critical" (lower violation)
            || contains "missing required" (lower violation)
         then penalty + 0.1
         else if contains "warning" (lower violation)
                 || contains "recommended" (lower violation)
         then penalty + 0.02
         else penalty + 0.05)
      violations penalty =
    fold_left (fun penalty violation => penalty + violation_penalty violation)
              violations penalty.
Proof.
  induction violations as [|violation violations IH]; intros penalty;
    [reflexivity|].
  cbn [fold_left]. rewrite <- IH. f_equal. unfold violation_penalty.
  destruct (_ || _); [reflexivity|]. destruct (_ || _); reflexivity.
Qed.

(** X22. The penalty score is never negative and never above the base
    score or zero, whichever is larger: violations only lower it.  Each
    violation costs between 0.02 and 0.1, so with [n] violations the
    result is at least [base - 0.1 n] and, unless it is floored at 0,
    at most [base - 0.02 n]. *)
Theorem penalty_score_range (base_score : Q) (violations : list string) :
  let n := inject_Z (Z.of_nat (length violations)) in
  let r := _penalty_based_score base_score violations in
  0 <= r /\
  base_score - 0.1 * n <= r /\
  (r == 0 \/ r <= base_score - 0.02 * n) /\
  r <= Qmax 0 base_score.
Proof.
  intros n r. subst r. unfold _penalty_based_score. rewrite penalty_loop.
  destruct (penalty_fold_range violations 0.0) as [Hlo Hhi].
  cbv zeta in Hlo, Hhi. fold n in Hlo, Hhi.
  assert (Hn : 0 <= n).
  { unfold n. change 0 with (inject_Z 0). rewrite <- Zle_Qle. lia. }
  match goal with
  | |- context [py_max 0.0 ?x] =>
      destruct (py_max_cases 0.0 x) as [[Hc ->] | [Hc ->]]
  end;
  destruct (Q.max_spec 0 base_score) as [[? ->] | [? ->]];
  repeat split; try lra; try (right; lra); try (left; lra).
Qed.

Lemma lower_app (s1 s2 : string) : lower (s1 +:+ s2) = lower s1 +:+ lower s2.
Proof.
  induction s1 as [|c s1 IH]; [reflexivity|].
  change (String (lower_char c) (lower (s1 +:+ s2)) =
          String (lower_char c) (lower s1 +:+ lower s2)).
  by rewrite IH.
Qed.

Lemma contains_unfold (needle hay : string) :
  contains needle hay =
  String.prefix needle hay ||
  match hay with
  | EmptyString => false
  | String _ hay' => contains needle hay'
  end.
Proof. destruct hay; reflexivity. Qed.

Lemma prefix_app (needle rest : string) :
  String.prefix needle (needle +:+ rest) = true.
Proof.
  induction needle as [|c needle IH]; [by destruct rest|].
  change (String.prefix (String c needle) (String c (needle +:+ rest)) = true).
  cbn [String.prefix]. destruct (Ascii.ascii_dec c c); [assumption | congruence].
Qed.

Lemma contains_app (needle before after : string) :
  contains needle (before +:+ needle +:+ after) = true.
Proof.
  induction before as [|c before IH].
  - change (contains needle (needle +:+ after) = true).
    rewrite contains_unfold, prefix_app. reflexivity.
  - change (contains needle (String c (before +:+ needle +:+ after)) = true).
    rewrite contains_unfold, IH. apply orb_true_r.
Qed.

(** X23. Severity is matched case-insensitively and "critical" wins: a
    violation that mentions "critical" in any letter case, anywhere in
    its text, costs 0.1 whatever else it mentions. *)
Theorem critical_mention_costs_a_tenth (base_score : Q) (before word after : string) :
  lower word = "critical" ->
  _penalty_based_score base_score [before +:+ word +:+ after] ==
  Qmax 0 (base_score - 0.1).
Proof.
  intros Hword. unfold _penalty_based_score. rewrite penalty_loop.
  cbn [fold_left].
  assert (Hpen : violation_penalty (before +:+ word +:+ after) = 0.1).
  { unfold violation_penalty.
    rewrite !lower_app, Hword, contains_app. reflexivity. }
  rewrite Hpen, py_max_Qmax.
  destruct (Q.max_spec 0.0 (base_score - (0.0 + 0.1))) as [[? ->] | [? ->]];
  destruct (Q.max_spec 0 (base_score - 0.1)) as [[? ->] | [? ->]]; lra.
Qed.

Lemma critical_mention_costs_a_tenth_witness :
  _penalty_based_score 1 ["Warning: " +:+ "CRITICAL" +:+ " file recommended"] ==
  Qmax 0 (1 - 0.1).
Proof.
  apply (critical_mention_costs_a_tenth 1 "Warning: " "CRITICAL" " file recommended").
  reflexivity.
Defined.
